(** * httpkit: the request-instrumentation pipeline and the router scaffold

    A shallow embedding of the Go packages [utils], [metrics], [tracing] and
    [httpkit], with just enough of their collaborators ([net/http], [chi],
    the Prometheus and OpenTelemetry sinks, [fmt]) to state what the
    middlewares do to a request.

    Conventions.
    - A Go [int] is a [Z]; no arithmetic is done on status codes or ports,
      so no wrap-around appears.
    - A response writer is an interface: the class [http.ResponseWriter].
      A handler is a function that works for every implementation of it and
      threads the process state [Proc] explicitly.
    - A handler either returns or panics ([Exit]); a panic unwinds through
      the callers, running deferred calls on the way.
    - A request is a value: a handler reads the request it is given and
      does not assign to its fields.
    - The sinks are logs of the calls they receive; what a backend does
      with a call afterwards is outside the model. *)

From Stdlib Require Import ZArith Ascii String List Bool Lia.
From Stdlib Require Import DecimalString DecimalPos.
From stdpp Require Import base gmap strings list.

Local Open Scope string_scope.
Local Open Scope Z_scope.
Local Open Scope list_scope.

(* ===================================================================== *)
(** ** Package [fmt]: the two renderings of the verb [%d] that occur *)
(* ===================================================================== *)
Module fmt.

(** An operand handed to [Sprintf]. *)
Inductive Operand :=
| Int (n : Z)
| Bool (b : bool).

(** [%d] of an integer: its decimal digits, with a minus sign when negative. *)
Definition decimal (n : Z) : string := NilZero.string_of_int (Z.to_int n).

(** [%v] of a boolean, as used inside the bad-verb rendering. *)
Definition boolean (b : bool) : string := if b then "true" else "false".

(** The verb [%d]: defined for integers; any other operand is rendered
    as [%!d(type=value)]. *)
Definition verb_d (x : Operand) : string :=
  match x with
  | Int n => decimal n
  | Bool b => "%!d(bool=" +:+ boolean b +:+ ")"
  end.

End fmt.

(* ===================================================================== *)
(** ** Package [otelcodes] *)
(* ===================================================================== *)
Module otelcodes.
Inductive Code := Unset | Error | Ok.
End otelcodes.

(* ===================================================================== *)
(** ** Package [net/http]: requests, headers, writers, handlers *)
(* ===================================================================== *)

(** [http.Header]: a map from a canonical key to its values. *)
Abbreviation HeaderMap := (gmap string (list string)).

(** [context.Context] as far as the middlewares read and write it: the
    baggage, the address of chi's route context (a pointer, so what dispatch
    writes later is seen through every copy of the context), and the span. *)
Record Context := {
  ctxBaggage : list (string * string);
  ctxRoute : option nat;
  ctxSpan : option nat
}.

Record URL := { Path : string }.

Record Request := {
  Method : string;
  url : URL;
  ReqHeader : HeaderMap;
  Host : string;
  RequestURI : string;
  reqContext : Context
}.

Inductive MetricOp :=
| CounterInc (path method status : string)
| HistogramObserve (path method status : string) (duration : Z).

Inductive KeyValue :=
| KVString (key value : string)
| HTTPStatusCode (code : Z)
| HTTPMethod (method : string)
| HTTPURL (u : string).

Inductive SpanOp :=
| SpanStart (span : nat) (name : string)
| SpanSetStatus (span : nat) (code : otelcodes.Code) (description : string)
| SpanSetName (span : nat) (name : string)
| SpanSetAttributes (span : nat) (kv : list KeyValue)
| SpanEnd (span : nat).

(** The state of the process: the package variable of [httpkit], the
    monotonic clock in nanoseconds, the calls received by the metrics and
    tracing sinks (oldest first), and what each route context reports as
    its pattern. *)
Record Proc := {
  CorsAllowOrigins : string;
  clock : Z;
  metricsSink : list MetricOp;
  spanSink : list SpanOp;
  routeCtxs : gmap nat string
}.

Definition set_CorsAllowOrigins (v : string) (p : Proc) : Proc :=
  {| CorsAllowOrigins := v; clock := clock p; metricsSink := metricsSink p;
     spanSink := spanSink p; routeCtxs := routeCtxs p |}.

Definition emit_metric (op : MetricOp) (p : Proc) : Proc :=
  {| CorsAllowOrigins := CorsAllowOrigins p; clock := clock p;
     metricsSink := metricsSink p ++ [op];
     spanSink := spanSink p; routeCtxs := routeCtxs p |}.

Definition emit_span (op : SpanOp) (p : Proc) : Proc :=
  {| CorsAllowOrigins := CorsAllowOrigins p; clock := clock p;
     metricsSink := metricsSink p;
     spanSink := spanSink p ++ [op]; routeCtxs := routeCtxs p |}.

Inductive Exit :=
| Returned
| Panicked (v : string).

Record Out (W : Type) := MkOut {
  out_w : W;
  out_proc : Proc;
  out_exit : Exit
}.
Arguments MkOut {W} _ _ _.
Arguments out_w {W} _.
Arguments out_proc {W} _.
Arguments out_exit {W} _.

Module http.

Definition StatusOK : Z := 200.
Definition StatusNoContent : Z := 204.
Definition MethodOptions : string := "OPTIONS".

(** [Header.Set]: the key now has exactly this one value. *)
Definition Header_Set (key value : string) (h : HeaderMap) : HeaderMap :=
  <[key := [value]]> h.

(** [Header.Get]: the first value of the key, or the empty string. *)
Definition Header_Get (key : string) (h : HeaderMap) : string :=
  match h !! key with
  | Some (v :: _) => v
  | _ => ""
  end.

(** The interface [http.ResponseWriter].  [Header()] returns a reference
    to the writer's map; [UpdateHeader] is a mutation done through it. *)
Class ResponseWriter (W : Type) := {
  Header : W -> HeaderMap;
  UpdateHeader : (HeaderMap -> HeaderMap) -> W -> W;
  Write : string -> W -> W;
  WriteHeader : Z -> W -> W
}.

(** The interface [http.Handler]: [ServeHTTP(w, r)], for any writer. *)
Definition Handler : Type :=
  forall (W : Type), ResponseWriter W -> W -> Request -> Proc -> Out W.

(** [http.Server.ListenAndServe] returns one of these, never nil in
    practice; [ErrServerClosed] is the sentinel it returns after
    [Shutdown] or [Close]. *)
Inductive error :=
| ErrServerClosed
| ErrOther (msg : string).

(** A writer that records the calls it receives, in order. *)
Record Recorder := {
  recHeader : HeaderMap;
  recCodes : list Z;
  recBody : string
}.

Definition NewRecorder : Recorder :=
  {| recHeader := ∅; recCodes := []; recBody := "" |}.

#[global] Instance Recorder_writer : ResponseWriter Recorder := {
  Header w := recHeader w;
  UpdateHeader f w :=
    {| recHeader := f (recHeader w); recCodes := recCodes w; recBody := recBody w |};
  Write b w :=
    {| recHeader := recHeader w; recCodes := recCodes w; recBody := recBody w +:+ b |};
  WriteHeader c w :=
    {| recHeader := recHeader w; recCodes := recCodes w ++ [c]; recBody := recBody w |}
}.

End http.

(* ===================================================================== *)
(** ** Package [utils] (path.go) *)
(* ===================================================================== *)
Module utils.

Definition OKStatusMsg : string := "0K".
Definition ClientStatusMsg : string := "Client Error".
Definition ServerStatusMsg : string := "Server Error".
Definition DefaultrStatusMsg : string := "Unhandled Status".

Definition invalidPaths : list string :=
  ["/metrics"; "/status"; "/ready"; "/"; "/*"].

(** [slices.Contains]: a linear scan with [==]. *)
Fixpoint Contains (s : list string) (v : string) : bool :=
  match s with
  | [] => false
  | x :: rest => if String.eqb v x then true else Contains rest v
  end.

Definition CheckInValidPath (r : Request) : bool :=
  Contains invalidPaths (Path (url r)).

(** [StatusWriter] embeds a response writer and adds one field. *)
Record StatusWriter (W : Type) := MkStatusWriter {
  ResponseWriter : W;
  StatusCode : Z
}.
Arguments MkStatusWriter {W} _ _.
Arguments ResponseWriter {W} _.
Arguments StatusCode {W} _.

(** The method [StatusWriter.WriteHeader], the only one it overrides. *)
Definition WriteHeader {W} `{http.ResponseWriter W}
    (code : Z) (sw : StatusWriter W) : StatusWriter W :=
  {| ResponseWriter := http.WriteHeader code (ResponseWriter sw);
     StatusCode := code |}.

(** [Header] and [Write] are promoted from the embedded writer. *)
#[global] Instance StatusWriter_writer {W} `{http.ResponseWriter W} :
    http.ResponseWriter (StatusWriter W) := {
  http.Header sw := http.Header (ResponseWriter sw);
  http.UpdateHeader f sw :=
    {| ResponseWriter := http.UpdateHeader f (ResponseWriter sw);
       StatusCode := StatusCode sw |};
  http.Write b sw :=
    {| ResponseWriter := http.Write b (ResponseWriter sw);
       StatusCode := StatusCode sw |};
  http.WriteHeader := WriteHeader
}.

Definition GetStatus {W} (sw : StatusWriter W) : otelcodes.Code * string :=
  if (StatusCode sw >=? 200) && (StatusCode sw <? 300) then
    (otelcodes.Ok, OKStatusMsg)
  else if (StatusCode sw >=? 400) && (StatusCode sw <? 500) then
    (otelcodes.Error, ClientStatusMsg)
  else if StatusCode sw >=? 500 then
    (otelcodes.Error, ServerStatusMsg)
  else
    (otelcodes.Unset, DefaultrStatusMsg).

End utils.

(* ===================================================================== *)
(** ** Collaborators: clock, baggage, router context, the two sinks *)
(* ===================================================================== *)
Module time.

Definition Now (p : Proc) : Z := clock p.

(** [time.Since(start)], in nanoseconds.  The middleware hands the sink
    [Seconds()] of it, a float; the nanosecond count stands for that number. *)
Definition Since (start : Z) (p : Proc) : Z := clock p - start.

End time.

Module baggage.

Definition ContextWithoutBaggage (ctx : Context) : Context :=
  {| ctxBaggage := []; ctxRoute := ctxRoute ctx; ctxSpan := ctxSpan ctx |}.

End baggage.

(** The functions this repository registers with [Mux.Use], by name. *)
Inductive Middleware :=
| chimiddleware_StripSlashes
| metrics_MetricsMiddleware
| tracing_TracingMiddleware
| httpkit_cors
| chimiddleware_RealIP.

Module chi.

(** [chi.RouteContext(ctx)]: the pointer kept in the context, nil if none. *)
Definition RouteContext (ctx : Context) : option nat := ctxRoute ctx.

(** The method [RoutePattern] of a route context: the pattern dispatch
    resolved so far; the empty string for a nil receiver and while nothing
    is resolved.  The router's matching is chi's own; the process state
    keeps, per route context, what this accessor reports. *)
Definition RoutePattern (x : option nat) (p : Proc) : string :=
  match x with
  | None => ""
  | Some a => default "" (routeCtxs p !! a)
  end.

(** [chi.Mux]: the middleware stack in registration order (the first one
    registered is the outermost), the routes as (method, pattern), and the
    patterns of the mounted sub-routers. *)
Record Mux := {
  middlewares : list Middleware;
  routes : list (string * string);
  mounts : list string
}.

Definition NewRouter : Mux :=
  {| middlewares := []; routes := []; mounts := [] |}.

Definition Use (m : Middleware) (mx : Mux) : Mux :=
  {| middlewares := middlewares mx ++ [m]; routes := routes mx; mounts := mounts mx |}.

Definition Get (pattern : string) (mx : Mux) : Mux :=
  {| middlewares := middlewares mx; routes := routes mx ++ [("GET", pattern)];
     mounts := mounts mx |}.

Definition Mount (pattern : string) (mx : Mux) : Mux :=
  {| middlewares := middlewares mx; routes := routes mx;
     mounts := mounts mx ++ [pattern] |}.

End chi.

Module prometheus.

(** [vec.WithLabelValues(path, method, status).Inc()] *)
Definition Inc (path method status : string) (p : Proc) : Proc :=
  emit_metric (CounterInc path method status) p.

(** [vec.WithLabelValues(path, method, status).Observe(duration)] *)
Definition Observe (path method status : string) (duration : Z) (p : Proc) : Proc :=
  emit_metric (HistogramObserve path method status duration) p.

End prometheus.

Module otel.

(** [tracer.Start(ctx, name)]: a new span, identified by the position of its
    start record in the sink, and the context that carries it. *)
Definition Start (ctx : Context) (name : string) (p : Proc) : Context * nat * Proc :=
  let span := length (spanSink p) in
  ({| ctxBaggage := ctxBaggage ctx; ctxRoute := ctxRoute ctx; ctxSpan := Some span |},
   span,
   emit_span (SpanStart span name) p).

Definition SetStatus (span : nat) (st : otelcodes.Code * string) (p : Proc) : Proc :=
  emit_span (SpanSetStatus span (fst st) (snd st)) p.

Definition SetName (span : nat) (name : string) (p : Proc) : Proc :=
  emit_span (SpanSetName span name) p.

Definition SetAttributes (span : nat) (kv : list KeyValue) (p : Proc) : Proc :=
  emit_span (SpanSetAttributes span kv) p.

Definition End_ (span : nat) (p : Proc) : Proc :=
  emit_span (SpanEnd span) p.

End otel.

(** [r.WithContext(ctx)] *)
Definition WithContext (r : Request) (ctx : Context) : Request :=
  {| Method := Method r; url := url r; ReqHeader := ReqHeader r; Host := Host r;
     RequestURI := RequestURI r; reqContext := ctx |}.

(** [defer f()] before a body: [f] runs when the body returns and when it
    panics, and a panic goes on unwinding after it. *)
Definition defer {W : Type} (deferred : Proc -> Proc) (body : Out W) : Out W :=
  MkOut (out_w body) (deferred (out_proc body)) (out_exit body).

(* ===================================================================== *)
(** ** Package [metrics] *)
(* ===================================================================== *)
Module metrics.

Definition MetricsMiddleware (next : http.Handler) : http.Handler :=
  fun W RW w r p =>
    if utils.CheckInValidPath r then
      next W RW w r p
    else
      let start := time.Now p in
      let ww := utils.MkStatusWriter w http.StatusOK in
      let o := next (utils.StatusWriter W) _ ww r p in
      match out_exit o with
      | Panicked v => MkOut (utils.ResponseWriter (out_w o)) (out_proc o) (Panicked v)
      | Returned =>
          let ww := out_w o in
          let p := out_proc o in
          let statusCode := fmt.verb_d (fmt.Int (utils.StatusCode ww)) in
          let path := chi.RoutePattern (chi.RouteContext (reqContext r)) p in
          let method := Method r in
          let duration := time.Since start p in
          let p := prometheus.Inc path method statusCode p in
          let p := prometheus.Observe path method statusCode duration p in
          MkOut (utils.ResponseWriter ww) p Returned
      end.

End metrics.

(* ===================================================================== *)
(** ** Package [tracing] *)
(* ===================================================================== *)
Module tracing.

Definition getFullURL (r : Request) : string :=
  let scheme :=
    if String.eqb (http.Header_Get "X-Forwarded-Proto" (ReqHeader r)) "https"
    then "https" else "http" in
  scheme +:+ "://" +:+ Host r +:+ RequestURI r.

Definition TracingMiddleware (next : http.Handler) : http.Handler :=
  fun W RW w r p =>
    if utils.CheckInValidPath r then
      next W RW w r p
    else
      let defaultCtx := baggage.ContextWithoutBaggage (reqContext r) in
      let ww := utils.MkStatusWriter w http.StatusOK in
      let '(ctx, span, p) := otel.Start defaultCtx (Path (url r)) p in
      defer (otel.End_ span)
        (let o := next (utils.StatusWriter W) _ ww (WithContext r ctx) p in
         match out_exit o with
         | Panicked v => MkOut (utils.ResponseWriter (out_w o)) (out_proc o) (Panicked v)
         | Returned =>
             let ww := out_w o in
             let p := out_proc o in
             let routePattern := chi.RoutePattern (chi.RouteContext defaultCtx) p in
             let p := otel.SetStatus span (utils.GetStatus ww) p in
             let p := otel.SetName span routePattern p in
             let p := otel.SetAttributes span
                        [KVString "extra_path" (Path (url r));
                         HTTPStatusCode (utils.StatusCode ww);
                         HTTPMethod (Method r);
                         HTTPURL (getFullURL r)] p in
             MkOut (utils.ResponseWriter ww) p Returned
         end).

End tracing.

(* ===================================================================== *)
(** ** Package [httpkit] *)
(* ===================================================================== *)
Module httpkit.

(** [http.Server], as far as the constructors fill it. *)
Record Server := {
  Addr : string;
  SrvHandler : chi.Mux
}.

Record Handler := {
  server : Server;
  Router : chi.Mux
}.

Record SubDomain := {
  Domain : string;
  SubRouter : chi.Mux
}.

(** [fmt.Sprintf(":%d", port)] *)
Definition Sprintf_addr (port : fmt.Operand) : string := ":" +:+ fmt.verb_d port.

Definition cors (next : http.Handler) : http.Handler :=
  fun W RW w r p =>
    let w := http.UpdateHeader
               (http.Header_Set "Access-Control-Allow-Origin" (CorsAllowOrigins p)) w in
    let w := http.UpdateHeader
               (http.Header_Set "Access-Control-Allow-Methods"
                  "GET, POST, PUT, DELETE, OPTIONS") w in
    let w := http.UpdateHeader
               (http.Header_Set "Access-Control-Allow-Headers"
                  "Content-Type, Authorization, User-Address, Token") w in
    let w := http.UpdateHeader (http.Header_Set "Access-Control-Max-Age" "3600") w in
    if String.eqb (Method r) http.MethodOptions then
      MkOut (http.WriteHeader http.StatusNoContent w) p Returned
    else
      next W RW w r p.

Definition New (port : Z) (tracerEnable metricsEnable setCors : bool)
    (corsAllowOrigins : string) (subdomains : list SubDomain) (p : Proc)
    : Handler * Proc :=
  let router := chi.NewRouter in
  let router := chi.Use chimiddleware_StripSlashes router in
  let router := if metricsEnable then chi.Use metrics_MetricsMiddleware router
                else router in
  let router := if tracerEnable then chi.Use tracing_TracingMiddleware router
                else router in
  let '(router, p) :=
    if setCors then
      (chi.Use httpkit_cors router, set_CorsAllowOrigins corsAllowOrigins p)
    else (router, p) in
  let router := chi.Use chimiddleware_RealIP router in
  let router := chi.Get "/" router in
  let router := chi.Get "/ready" router in
  let router := chi.Get "/status" router in
  let router := fold_left (fun mx sd => chi.Mount (Domain sd) mx) subdomains router in
  ({| Router := router;
      server := {| Addr := Sprintf_addr (fmt.Int port); SrvHandler := router |} |},
   p).

Definition NewEmpty (port tracerEnable metricsEnable : bool) (p : Proc)
    : Handler * Proc :=
  let router := chi.NewRouter in
  let router := chi.Use chimiddleware_StripSlashes router in
  let router := if tracerEnable then chi.Use tracing_TracingMiddleware router
                else router in
  let router := if metricsEnable then chi.Use metrics_MetricsMiddleware router
                else router in
  let router := chi.Use chimiddleware_RealIP router in
  let router := chi.Get "/" router in
  let router := chi.Get "/ready" router in
  let router := chi.Get "/status" router in
  ({| Router := router;
      server := {| Addr := Sprintf_addr (fmt.Bool port); SrvHandler := router |} |},
   p).

(** The implementation behind a registered name; chi's own two are not part
    of this repository. *)
Definition implementation (m : Middleware) : option (http.Handler -> http.Handler) :=
  match m with
  | metrics_MetricsMiddleware => Some metrics.MetricsMiddleware
  | tracing_TracingMiddleware => Some tracing.TracingMiddleware
  | httpkit_cors => Some cors
  | chimiddleware_StripSlashes | chimiddleware_RealIP => None
  end.

(** [err != nil], and [err == http.ErrServerClosed]: identity with the
    sentinel. *)
Definition non_nil (err : option http.error) : bool :=
  match err with
  | Some _ => true
  | None => false
  end.

Definition is_ErrServerClosed (err : option http.error) : bool :=
  match err with
  | Some http.ErrServerClosed => true
  | _ => false
  end.

Section Lifecycle.

(** What [h.server.ListenAndServe()] returns once it stops serving. *)
Variable ListenAndServe : Server -> option http.error.

Definition Start (h : Handler) : option http.error :=
  let err := ListenAndServe (server h) in
  if non_nil err && negb (is_ErrServerClosed err) then err else None.

End Lifecycle.

End httpkit.

(* ===================================================================== *)
(** ** Handlers given by the calls they make *)
(* ===================================================================== *)

(** One step of a business handler: a call on its response writer, or a
    step on the process state (time passing, dispatch resolving the route
    pattern, a nested router being built, ...). *)
Inductive Call :=
| CallHeaderSet (key value : string)
| CallWrite (body : string)
| CallWriteHeader (code : Z)
| CallProc (f : Proc -> Proc).

Fixpoint perform {W : Type} `{http.ResponseWriter W}
    (calls : list Call) (w : W) (p : Proc) : W * Proc :=
  match calls with
  | [] => (w, p)
  | CallHeaderSet k v :: rest =>
      perform rest (http.UpdateHeader (http.Header_Set k v) w) p
  | CallWrite b :: rest => perform rest (http.Write b w) p
  | CallWriteHeader c :: rest => perform rest (http.WriteHeader c w) p
  | CallProc f :: rest => perform rest w (f p)
  end.

(** The handler that, on a request and a process state, makes the given
    calls and then returns or panics. *)
Definition scripted (script : Request -> Proc -> list Call * Exit) : http.Handler :=
  fun W RW w r p =>
    let '(w', p') := perform (fst (script r p)) w p in
    MkOut w' p' (snd (script r p)).

(** The code of the last [WriteHeader] among the calls, or the default. *)
Fixpoint last_code (calls : list Call) (default : Z) : Z :=
  match calls with
  | [] => default
  | CallWriteHeader c :: rest => last_code rest c
  | _ :: rest => last_code rest default
  end.

Definition calls_WriteHeader (c : Call) : bool :=
  match c with
  | CallWriteHeader _ => true
  | _ => false
  end.

(** A port address as [New] means it: a colon and decimal digits. *)
Definition is_digit (c : Ascii.ascii) : bool :=
  let n := Ascii.nat_of_ascii c in ((48 <=? n) && (n <=? 57))%nat.

Fixpoint all_digits (s : string) : bool :=
  match s with
  | EmptyString => true
  | String c rest => is_digit c && all_digits rest
  end.

Definition is_port_addr (s : string) : bool :=
  match s with
  | String ":"%char (String c rest) => is_digit c && all_digits rest
  | _ => false
  end.

(* ===================================================================== *)
(** ** Package [strconv]: [Atoi] *)
(* ===================================================================== *)
Module strconv.

(** The range of [int] where it has 64 bits. *)
Definition maxInt : Z := 9223372036854775807.
Definition minInt : Z := -9223372036854775808.

(** [strconv.Atoi]: an optional sign, then one or more ASCII digits, the
    value within the range of [int]; anything else is an error. *)
Definition Atoi (s : string) : option Z :=
  let '(negative, digits) :=
    match s with
    | String c rest =>
        if Ascii.eqb c "+" then (false, rest)
        else if Ascii.eqb c "-" then (true, rest)
        else (false, s)
    | EmptyString => (false, s)
    end in
  match digits with
  | EmptyString => None
  | _ =>
      match NilEmpty.uint_of_string digits with
      | Some d =>
          let n := if negative then - Z.of_uint d else Z.of_uint d in
          if (minInt <=? n) && (n <=? maxInt) then Some n else None
      | None => None
      end
  end.

End strconv.

(* ===================================================================== *)
(** ** Package [utils] (utils.go) *)
(* ===================================================================== *)
Module utils_go.

Definition InvalidBody : string := "invalid_body".
Definition InvalidParam : string := "invalid_param".
Definition InvalidCredentials : string := "invalid_credentials".
Definition InternalCode : string := "internal_server_error".

Definition ContentType : string := "Content-Type".
Definition ApplicationJSON : string := "application/json; charset=utf-8".
Definition FaultCodeInternalServerError : string := "internal_server_error".

Definition ErrorCode : string := "code".
Definition ErrorMsg : string := "msg".
Definition ErrorMessage : string := "message".

Definition StatusBadRequest : Z := 400.
Definition StatusInternalServerError : Z := 500.

(** The errors these functions return: the two package sentinels, an error
    made on the spot with [errors.New], or one that a library returned. *)
Inductive error :=
| ErrEmptyBody
| ErrInvalidBody
| errors_New (text : string)
| Foreign (text : string).

(** [err.Error()] *)
Definition Error_text (e : error) : string :=
  match e with
  | ErrEmptyBody => "body is empty"
  | ErrInvalidBody => "body is invalid"
  | errors_New text => text
  | Foreign text => text
  end.

Definition newline : string := String "010"%char EmptyString.

Section Collaborators.

(** [interface{}] values and the JSON encoding of [encoding/json]: what a
    value encodes to, or the error; strings and maps as such values. *)
Variable Any : Type.
Variable OfString : string -> Any.
Variable OfMap : gmap string Any -> Any.
Variable Marshal : Any -> string + error.

(** [json.Unmarshal(body, v)]: the target after the call, and the error. *)
Variable Target : Type.
Variable Unmarshal : string -> Target -> Target * option error.

(** [io.ReadAll(r.Body)]: the bytes read, and the error. *)
Variable ReadAll : Request -> string * option error.

(** [chi.URLParam(r, key)] and [r.URL.Query().Get(key)]: the empty string
    when the key is absent. *)
Variable URLParam : Request -> string -> string.
Variable Query_Get : Request -> string -> string.

(** [strconv.ParseFloat(s, 64)] and [uuid.Parse(s)], with the values they
    return beside the error, and the zero [float64]. *)
Variable float64 : Type.
Variable float_zero : float64.
Variable ParseFloat : string -> float64 * option error.
Variable UUID : Type.
Variable uuid_Parse : string -> UUID * option error.

Definition ReadBody (r : Request) (v : Target) : Target * option error :=
  let '(body, err) := ReadAll r in
  match err with
  | Some _ => (v, Some ErrInvalidBody)
  | None =>
      if (String.length body =? 0)%nat then (v, Some ErrEmptyBody)
      else
        let '(v, err) := Unmarshal body v in
        match err with
        | Some _ => (v, Some ErrInvalidBody)
        | None => (v, None)
        end
  end.

Definition WriteJSON {W : Type} `{http.ResponseWriter W}
    (w : W) (statusCode : Z) (body : string) : W :=
  let w := http.UpdateHeader (http.Header_Set ContentType ApplicationJSON) w in
  let w := http.WriteHeader statusCode w in
  http.Write body w.

(** [json.NewEncoder(w).Encode(v)]: the encoding and a newline in one
    [Write]; when the value cannot be encoded nothing is written. *)
Definition Encode {W : Type} `{http.ResponseWriter W}
    (w : W) (v : Any) : W * option error :=
  match Marshal v with
  | inl b => (http.Write (b +:+ newline) w, None)
  | inr e => (w, Some e)
  end.

Definition Fault {W : Type} `{http.ResponseWriter W}
    (w : W) (httpStatus : Z) (code message : string) : W * option error :=
  let w := http.UpdateHeader (http.Header_Set ContentType ApplicationJSON) w in
  let w := http.WriteHeader httpStatus w in
  let response : gmap string Any := ∅ in
  let response := <[ErrorCode := OfString code]> response in
  let response := <[ErrorMsg := OfString message]> response in
  let response := <[ErrorMessage := OfString message]> response in
  Encode w (OfMap response).

(** [for key, value := range additionalData { response[key] = value }]:
    every key of [additionalData] ends up with its value, in whatever
    order the range runs. *)
Definition FaultWithData {W : Type} `{http.ResponseWriter W}
    (w : W) (httpStatus : Z) (code message : string)
    (additionalData : gmap string Any) : W * option error :=
  let w := http.UpdateHeader (http.Header_Set ContentType ApplicationJSON) w in
  let w := http.WriteHeader httpStatus w in
  let response : gmap string Any := ∅ in
  let response := <[ErrorCode := OfString code]> response in
  let response := <[ErrorMsg := OfString message]> response in
  let response := <[ErrorMessage := OfString message]> response in
  let response := additionalData ∪ response in
  Encode w (OfMap response).

Definition WriteBody {W : Type} `{http.ResponseWriter W}
    (w : W) (statusCode : Z) (body : Any) : W * option error :=
  match Marshal body with
  | inr err =>
      let '(w, _) := Fault w StatusInternalServerError FaultCodeInternalServerError
                       (Error_text err) in
      (w, Some err)
  | inl result => (WriteJSON w statusCode result, None)
  end.

Definition ParseParam {W : Type} (w : W) (r : Request) (param : string) : string :=
  URLParam r param.

Definition ParseIDParam {W : Type} `{http.ResponseWriter W}
    (w : W) (r : Request) (param : string) : W * Z * option error :=
  let parsedParam := URLParam r param in
  if String.eqb parsedParam "" then
    let '(w, _) := Fault w StatusBadRequest InvalidParam
                     (param +:+ " was not not found") in
    (w, 0, Some (errors_New "parameter nof found"))
  else
    match strconv.Atoi parsedParam with
    | None =>
        let '(w, _) := Fault w StatusBadRequest InvalidParam
                         (param +:+ " is invalid type") in
        (w, 0, Some (errors_New "parameter invalid"))
    | Some parsedID => (w, parsedID, None)
    end.

Definition ParseFloatParam {W : Type} `{http.ResponseWriter W}
    (w : W) (r : Request) (param : string) : W * float64 * option error :=
  let parsedParam := URLParam r param in
  if String.eqb parsedParam "" then
    let '(w, _) := Fault w StatusBadRequest InvalidParam
                     (param +:+ " was not not found") in
    (w, float_zero, Some (errors_New "parameter nof found"))
  else
    let '(parsedID, err) := ParseFloat parsedParam in
    match err with
    | Some _ =>
        let '(w, _) := Fault w StatusBadRequest InvalidParam
                         (param +:+ " is invalid type") in
        (w, float_zero, Some (errors_New "parameter invalid"))
    | None => (w, parsedID, None)
    end.

Definition ParseParamUUID {W : Type} `{http.ResponseWriter W}
    (w : W) (r : Request) (param : string) : W * UUID * option error :=
  let '(parsedParam, err) := uuid_Parse (URLParam r param) in
  match err with
  | Some e =>
      let '(w, _) := Fault w StatusBadRequest InvalidParam (Error_text e) in
      (w, parsedParam, err)
  | None => (w, parsedParam, err)
  end.

Definition ParseFloatQuery {W : Type} `{http.ResponseWriter W}
    (w : W) (r : Request) (param : string) : W * float64 * option error :=
  let parsedParam := Query_Get r param in
  if String.eqb parsedParam "" then
    let '(w, _) := Fault w StatusBadRequest InvalidParam
                     (param +:+ " was not not found") in
    (w, float_zero, Some (errors_New "parameter nof found"))
  else
    let '(parsedID, err) := ParseFloat parsedParam in
    match err with
    | Some _ =>
        let '(w, _) := Fault w StatusBadRequest InvalidParam
                         (param +:+ " is invalid type") in
        (w, float_zero, Some (errors_New "parameter invalid"))
    | None => (w, parsedID, None)
    end.

End Collaborators.

End utils_go.

(* ===================================================================== *)
(** ** Package [httpkit]: the handler of the fixed endpoints *)
(* ===================================================================== *)
Module httpkit_endpoints.

Section Encoding.

Variable Any : Type.
Variable OfString : string -> Any.
Variable OfMap : gmap string Any -> Any.
Variable Marshal : Any -> string + utils_go.error.

(** [GetStatus]: the error of [WriteBody] is dropped. *)
Definition GetStatus : http.Handler :=
  fun W RW w r p =>
    let '(w, _) := utils_go.WriteBody Any OfString OfMap Marshal w http.StatusOK
                     (OfMap (<["message" := OfString "OK"]> ∅)) in
    MkOut w p Returned.

(** A handler that answers with [utils.WriteBody] and returns. *)
Definition answers_with (statusCode : Z) (body : Any) : http.Handler :=
  fun W RW w r p =>
    MkOut (fst (utils_go.WriteBody Any OfString OfMap Marshal w statusCode body))
          p Returned.

End Encoding.

End httpkit_endpoints.

(* ===================================================================== *)
(** ** Vocabulary of the properties *)
(* ===================================================================== *)

Fixpoint count {A : Type} (f : A -> bool) (l : list A) : nat :=
  match l with
  | [] => 0%nat
  | x :: rest => if f x then S (count f rest) else count f rest
  end.

Definition is_CounterInc (op : MetricOp) : bool :=
  match op with
  | CounterInc _ _ _ => true
  | HistogramObserve _ _ _ _ => false
  end.

Definition is_HistogramObserve (op : MetricOp) : bool :=
  match op with
  | CounterInc _ _ _ => false
  | HistogramObserve _ _ _ _ => true
  end.

Definition is_SpanStart (op : SpanOp) : bool :=
  match op with
  | SpanStart _ _ => true
  | _ => false
  end.

Definition is_SpanEnd (span : nat) (op : SpanOp) : bool :=
  match op with
  | SpanEnd s => Nat.eqb s span
  | _ => false
  end.

(** The middleware order as the specification words it: trailing-slash
    normalization, then metrics, tracing and CORS when enabled, then
    client-IP normalization. *)
Definition fixed_order (metricsEnable tracerEnable setCors : bool) : list Middleware :=
  [chimiddleware_StripSlashes]
  ++ (if metricsEnable then [metrics_MetricsMiddleware] else [])
  ++ (if tracerEnable then [tracing_TracingMiddleware] else [])
  ++ (if setCors then [httpkit_cors] else [])
  ++ [chimiddleware_RealIP].

(** A router construction, as an event in the life of the process. *)
Inductive Construction :=
| ByNew (port : Z) (tracerEnable metricsEnable setCors : bool)
        (corsAllowOrigins : string) (subdomains : list httpkit.SubDomain)
| ByNewEmpty (port tracerEnable metricsEnable : bool).

Definition construct (p : Proc) (c : Construction) : Proc :=
  match c with
  | ByNew port te me sc origin subs => snd (httpkit.New port te me sc origin subs p)
  | ByNewEmpty port te me => snd (httpkit.NewEmpty port te me p)
  end.

(** The origin given to the most recent construction that enabled CORS. *)
Fixpoint latest_origin (later : list Construction) (origin : string) : string :=
  match later with
  | [] => origin
  | ByNew _ _ _ true o _ :: rest => latest_origin rest o
  | _ :: rest => latest_origin rest origin
  end.

(** The four CORS headers in a header map. *)
Definition carries_cors_headers (origin : string) (h : HeaderMap) : Prop :=
  h !! "Access-Control-Allow-Origin" = Some [origin] /\
  h !! "Access-Control-Allow-Methods" = Some ["GET, POST, PUT, DELETE, OPTIONS"] /\
  h !! "Access-Control-Allow-Headers" =
    Some ["Content-Type, Authorization, User-Address, Token"] /\
  h !! "Access-Control-Max-Age" = Some ["3600"].

(** A writer whose [Header()] is a reference to one map: what is set
    through it is there at the next call, and writing the status line does
    not touch it. *)
Class HeaderReference (W : Type) `{http.ResponseWriter W} : Prop := {
  Header_UpdateHeader :
    forall (f : HeaderMap -> HeaderMap) (w : W),
      http.Header (http.UpdateHeader f w) = f (http.Header w);
  Header_WriteHeader :
    forall (c : Z) (w : W), http.Header (http.WriteHeader c w) = http.Header w
}.

#[global] Instance Recorder_reference : HeaderReference http.Recorder.
Proof. split; reflexivity. Qed.

#[global] Instance StatusWriter_reference (W : Type) `{HeaderReference W} :
  HeaderReference (utils.StatusWriter W).
Proof.
  split.
  - intros f w. cbn. apply (@Header_UpdateHeader W _ _).
  - intros c w. cbn. apply (@Header_WriteHeader W _ _).
Qed.

(* ===================================================================== *)
(** ** Sample requests and endpoints *)
(* ===================================================================== *)

(** Sample data used by the concrete lemmas below. *)
Definition proc0 : Proc :=
  {| CorsAllowOrigins := ""; clock := 0; metricsSink := []; spanSink := [];
     routeCtxs := ∅ |}.

Definition get_user_42 : Request :=
  {| Method := "GET"; url := {| Path := "/users/42" |}; ReqHeader := ∅;
     Host := "api.example"; RequestURI := "/users/42";
     reqContext := {| ctxBaggage := [("tenant", "acme")]; ctxRoute := Some 7%nat;
                      ctxSpan := None |} |}.

(** Dispatch resolves the pattern behind route context 7, three milliseconds
    pass, and the endpoint answers 404. *)
Definition user_not_found : Request -> Proc -> list Call * Exit :=
  fun _ _ =>
    ([CallProc (fun p =>
        {| CorsAllowOrigins := CorsAllowOrigins p; clock := clock p + 3000000;
           metricsSink := metricsSink p; spanSink := spanSink p;
           routeCtxs := <[7%nat := "/users/{id}"]> (routeCtxs p) |});
      CallHeaderSet "Content-Type" "application/json; charset=utf-8";
      CallWriteHeader 404;
      CallWrite "not found"],
     Returned).

(** The same endpoint, panicking after it wrote the status line. *)
Definition not_found_then_panics : Request -> Proc -> list Call * Exit :=
  fun r p => (fst (user_not_found r p), Panicked "nil pointer dereference").

(** An endpoint that writes a body only, and one that panics half-way. *)
Definition body_only : Request -> Proc -> list Call * Exit :=
  fun _ _ => ([CallWrite "hello"], Returned).

Definition panics : Request -> Proc -> list Call * Exit :=
  fun _ _ => ([CallWriteHeader 500], Panicked "boom").

(** A preflight request and a probe, both on an infrastructure path. *)
Definition options_status : Request :=
  {| Method := "OPTIONS"; url := {| Path := "/status" |}; ReqHeader := ∅;
     Host := "api.example"; RequestURI := "/status";
     reqContext := {| ctxBaggage := []; ctxRoute := Some 7%nat; ctxSpan := None |} |}.

Definition get_status : Request :=
  {| Method := "GET"; url := {| Path := "/status" |}; ReqHeader := ∅;
     Host := "api.example"; RequestURI := "/status";
     reqContext := {| ctxBaggage := []; ctxRoute := Some 7%nat; ctxSpan := None |} |}.

(** A preflight request on a path that is not excluded. *)
Definition options_user_42 : Request :=
  {| Method := "OPTIONS"; url := {| Path := "/users/42" |}; ReqHeader := ∅;
     Host := "api.example"; RequestURI := "/users/42";
     reqContext := reqContext get_user_42 |}.

Definition get_status_slash : Request :=
  {| Method := "GET"; url := {| Path := "/status/" |}; ReqHeader := ∅;
     Host := "api.example"; RequestURI := "/status/";
     reqContext := reqContext get_status |}.

(** Stand-ins for the libraries in the concrete lemmas: values are strings
    that encode to themselves, except one that does not encode; a map is
    shown by its message; the target of decoding is a string. *)
Definition toy_Marshal (v : string) : string + utils_go.error :=
  if String.eqb v "+Inf" then inr (utils_go.Foreign "json: unsupported value: +Inf")
  else inl v.

Definition toy_OfMap (m : gmap string string) : string :=
  default "" (m !! "message").

Definition toy_Unmarshal (body : string) (v : string) : string * option utils_go.error :=
  if String.eqb body "asdasd" then (v, Some (utils_go.Foreign "invalid character"))
  else (body, None).

(* ===================================================================== *)
(** * Properties *)
(* ===================================================================== *)

(** ** Shared facts about the model *)

(** The renderings of [%d] on a few operands. *)
Lemma verb_d_samples :
  fmt.verb_d (fmt.Int 0) = "0" /\ fmt.verb_d (fmt.Int 404) = "404" /\
  fmt.verb_d (fmt.Int 8080) = "8080" /\ fmt.verb_d (fmt.Int (-7)) = "-7" /\
  fmt.verb_d (fmt.Bool true) = "%!d(bool=true)".
Proof. repeat split. Qed.

(** The status writer is transparent: the writer it wraps sees the very
    calls the handler makes, and the stored code is the last one written. *)
Lemma perform_StatusWriter (W : Type) (RW : http.ResponseWriter W)
    (calls : list Call) :
  forall (w : W) (c : Z) (p : Proc),
    perform calls (utils.MkStatusWriter w c) p =
    (utils.MkStatusWriter (fst (perform calls w p)) (last_code calls c),
     snd (perform calls w p)).
Proof.
  induction calls as [| call rest IH]; intros w c p.
  - reflexivity.
  - destruct call; cbn [perform last_code]; apply IH.
Qed.

Lemma last_code_without_WriteHeader (calls : list Call) (d : Z) :
  forallb (fun c => negb (calls_WriteHeader c)) calls = true ->
  last_code calls d = d.
Proof.
  induction calls as [| call rest IH]; intros Hno.
  - reflexivity.
  - cbn [forallb] in Hno. apply andb_prop in Hno as [Hcall Hrest].
    destruct call; cbn in Hcall; try discriminate; cbn [last_code]; auto.
Qed.

Lemma GetStatus_cases (W : Type) (sw : utils.StatusWriter W) :
  let c := utils.StatusCode sw in
  (200 <= c < 300 -> utils.GetStatus sw = (otelcodes.Ok, utils.OKStatusMsg)) /\
  (400 <= c < 500 -> utils.GetStatus sw = (otelcodes.Error, utils.ClientStatusMsg)) /\
  (500 <= c -> utils.GetStatus sw = (otelcodes.Error, utils.ServerStatusMsg)) /\
  (c < 200 \/ 300 <= c < 400 ->
   utils.GetStatus sw = (otelcodes.Unset, utils.DefaultrStatusMsg)).
Proof.
  intros c. unfold utils.GetStatus. fold c.
  destruct (Z.geb_spec c 200), (Z.ltb_spec c 300), (Z.geb_spec c 400),
    (Z.ltb_spec c 500), (Z.geb_spec c 500); cbn [andb];
    repeat split; intros; first [reflexivity | lia].
Qed.

(** What the metrics middleware does with a request it instruments. *)
Lemma MetricsMiddleware_instrumented (next : http.Handler) (W : Type)
    (RW : http.ResponseWriter W) (w : W) (r : Request) (p : Proc) :
  utils.CheckInValidPath r = false ->
  let o := next _ _ (utils.MkStatusWriter w http.StatusOK) r p in
  let path := chi.RoutePattern (chi.RouteContext (reqContext r)) (out_proc o) in
  let status := fmt.decimal (utils.StatusCode (out_w o)) in
  let own :=
    match out_exit o with
    | Returned =>
        [CounterInc path (Method r) status;
         HistogramObserve path (Method r) status (clock (out_proc o) - clock p)]
    | Panicked _ => []
    end in
  metrics.MetricsMiddleware next W RW w r p =
  MkOut (utils.ResponseWriter (out_w o))
        (fold_left (fun q op => emit_metric op q) own (out_proc o))
        (out_exit o).
Proof.
  intros Hpath. unfold metrics.MetricsMiddleware. rewrite Hpath. cbv zeta.
  destruct (out_exit _); reflexivity.
Qed.

(** What the tracing middleware does with a request it instruments. *)
Lemma TracingMiddleware_instrumented (next : http.Handler) (W : Type)
    (RW : http.ResponseWriter W) (w : W) (r : Request) (p : Proc) :
  utils.CheckInValidPath r = false ->
  let defaultCtx := baggage.ContextWithoutBaggage (reqContext r) in
  let started := otel.Start defaultCtx (Path (url r)) p in
  let span := started.1.2 in
  let o := next _ _ (utils.MkStatusWriter w http.StatusOK)
             (WithContext r started.1.1) started.2 in
  let annotations :=
    match out_exit o with
    | Returned =>
        [SpanSetStatus span (fst (utils.GetStatus (out_w o)))
           (snd (utils.GetStatus (out_w o)));
         SpanSetName span (chi.RoutePattern (chi.RouteContext defaultCtx) (out_proc o));
         SpanSetAttributes span
           [KVString "extra_path" (Path (url r));
            HTTPStatusCode (utils.StatusCode (out_w o));
            HTTPMethod (Method r);
            HTTPURL (tracing.getFullURL r)]]
    | Panicked _ => []
    end in
  tracing.TracingMiddleware next W RW w r p =
  MkOut (utils.ResponseWriter (out_w o))
        (fold_left (fun q op => emit_span op q) (annotations ++ [SpanEnd span])
           (out_proc o))
        (out_exit o).
Proof.
  intros Hpath. unfold tracing.TracingMiddleware. rewrite Hpath.
  cbv zeta. unfold otel.Start. cbn [fst snd]. unfold defer.
  destruct (out_exit _); reflexivity.
Qed.

Lemma metricsSink_emitted (ops : list MetricOp) :
  forall p : Proc,
    metricsSink (fold_left (fun q op => emit_metric op q) ops p) =
    metricsSink p ++ ops.
Proof.
  induction ops as [| op rest IH]; intros p; cbn [fold_left].
  - now rewrite app_nil_r.
  - rewrite IH. cbn [emit_metric metricsSink]. now rewrite <- app_assoc.
Qed.

Lemma spanSink_emitted (ops : list SpanOp) :
  forall p : Proc,
    spanSink (fold_left (fun q op => emit_span op q) ops p) = spanSink p ++ ops.
Proof.
  induction ops as [| op rest IH]; intros p; cbn [fold_left].
  - now rewrite app_nil_r.
  - rewrite IH. cbn [emit_span spanSink]. now rewrite <- app_assoc.
Qed.

(** ** Response-status capture *)

(** C3. For every stored status code, [GetStatus] returns the success tier
    on [200,300), the client-error tier on [400,500), the server-error tier
    from 500 on, and the unclassified tier everywhere else; and a handler
    that never calls [WriteHeader] leaves the writer the middlewares build
    at its default 200, which [GetStatus] reports as success. *)
Theorem GetStatus_tiers :
  (forall (W : Type) (sw : utils.StatusWriter W),
     let c := utils.StatusCode sw in
     (200 <= c < 300 -> utils.GetStatus sw = (otelcodes.Ok, utils.OKStatusMsg)) /\
     (400 <= c < 500 -> utils.GetStatus sw = (otelcodes.Error, utils.ClientStatusMsg)) /\
     (500 <= c -> utils.GetStatus sw = (otelcodes.Error, utils.ServerStatusMsg)) /\
     (c < 200 \/ 300 <= c < 400 ->
      utils.GetStatus sw = (otelcodes.Unset, utils.DefaultrStatusMsg))) /\
  (forall (W : Type) (RW : http.ResponseWriter W) (calls : list Call) (w : W) (p : Proc),
     forallb (fun c => negb (calls_WriteHeader c)) calls = true ->
     let sw := fst (perform calls (utils.MkStatusWriter w http.StatusOK) p) in
     utils.StatusCode sw = 200 /\
     utils.GetStatus sw = (otelcodes.Ok, utils.OKStatusMsg)) /\
  (forall (script : Request -> Proc -> list Call * Exit) (W : Type)
          (RW : http.ResponseWriter W) (w : W) (r : Request) (p : Proc),
     utils.CheckInValidPath r = false ->
     let started :=
       otel.Start (baggage.ContextWithoutBaggage (reqContext r)) (Path (url r)) p in
     let does := script (WithContext r started.1.1) started.2 in
     forallb (fun c => negb (calls_WriteHeader c)) (fst does) = true ->
     snd does = Returned ->
     In (SpanSetStatus started.1.2 otelcodes.Ok utils.OKStatusMsg)
        (spanSink (out_proc (tracing.TracingMiddleware (scripted script) W RW w r p)))).
Proof.
  split; [| split].
  - intros W sw. apply GetStatus_cases.
  - intros W RW calls w p Hno sw.
    assert (Hcode : utils.StatusCode sw = 200).
    { unfold sw. rewrite perform_StatusWriter. cbn [fst utils.StatusCode].
      now rewrite last_code_without_WriteHeader. }
    split; [exact Hcode |].
    apply (GetStatus_cases _ sw). rewrite Hcode. lia.
  - intros script W RW w r p Hpath started does Hno Hreturned.
    rewrite TracingMiddleware_instrumented by exact Hpath.
    cbv zeta. fold started. cbn [out_proc]. rewrite spanSink_emitted.
    unfold scripted. fold does. rewrite perform_StatusWriter.
    cbn [out_exit out_w out_proc]. rewrite Hreturned.
    rewrite last_code_without_WriteHeader by exact Hno.
    rewrite !in_app_iff. right. left. cbn [In]. left. reflexivity.
Qed.

Lemma GetStatus_tiers_witness :
  utils.GetStatus (utils.MkStatusWriter http.NewRecorder 204) =
    (otelcodes.Ok, utils.OKStatusMsg) /\
  utils.GetStatus (utils.MkStatusWriter http.NewRecorder 404) =
    (otelcodes.Error, utils.ClientStatusMsg) /\
  utils.GetStatus (utils.MkStatusWriter http.NewRecorder 503) =
    (otelcodes.Error, utils.ServerStatusMsg) /\
  utils.GetStatus (utils.MkStatusWriter http.NewRecorder 302) =
    (otelcodes.Unset, utils.DefaultrStatusMsg) /\
  utils.GetStatus
    (fst (perform (fst (body_only get_user_42 proc0))
            (utils.MkStatusWriter http.NewRecorder http.StatusOK) proc0)) =
    (otelcodes.Ok, utils.OKStatusMsg) /\
  In (SpanSetStatus 0 otelcodes.Ok utils.OKStatusMsg)
     (spanSink (out_proc (tracing.TracingMiddleware (scripted body_only)
                            http.Recorder _ http.NewRecorder get_user_42 proc0))).
Proof.
  pose proof (proj1 GetStatus_tiers) as tiers.
  pose proof (proj1 (proj2 GetStatus_tiers)) as untouched.
  pose proof (proj2 (proj2 GetStatus_tiers)) as traced.
  split; [| split; [| split; [| split; [| split]]]].
  - apply (tiers _ (utils.MkStatusWriter http.NewRecorder 204)). cbn; lia.
  - apply (tiers _ (utils.MkStatusWriter http.NewRecorder 404)). cbn; lia.
  - apply (tiers _ (utils.MkStatusWriter http.NewRecorder 503)). cbn; lia.
  - apply (tiers _ (utils.MkStatusWriter http.NewRecorder 302)). cbn; lia.
  - apply (untouched _ _ (fst (body_only get_user_42 proc0)) http.NewRecorder proc0).
    reflexivity.
  - apply (traced body_only http.Recorder _ http.NewRecorder get_user_42 proc0);
      reflexivity.
Defined.

(** C4. The message that accompanies the span status is "Client Error" on
    [400,500), "Server Error" from 500 on and "Unhandled Status" outside
    the three tiers; on [200,300) the constant the code returns is the
    digit zero followed by K, not the word OK.  At the request below the
    handler answers 200 and the span is given that message. *)
Theorem status_message_on_success :
  (forall (W : Type) (sw : utils.StatusWriter W),
     let c := utils.StatusCode sw in
     (400 <= c < 500 -> snd (utils.GetStatus sw) = "Client Error") /\
     (500 <= c -> snd (utils.GetStatus sw) = "Server Error") /\
     (c < 200 \/ 300 <= c < 400 -> snd (utils.GetStatus sw) = "Unhandled Status") /\
     (200 <= c < 300 ->
      snd (utils.GetStatus sw) = "0K" /\ snd (utils.GetStatus sw) <> "OK")) /\
  spanSink (out_proc (tracing.TracingMiddleware (scripted body_only)
                        http.Recorder _ http.NewRecorder get_user_42 proc0)) =
    [SpanStart 0 "/users/42";
     SpanSetStatus 0 otelcodes.Ok "0K";
     SpanSetName 0 "";
     SpanSetAttributes 0
       [KVString "extra_path" "/users/42"; HTTPStatusCode 200; HTTPMethod "GET";
        HTTPURL "http://api.example/users/42"];
     SpanEnd 0].
Proof.
  split; [| reflexivity].
  intros W sw c.
  destruct (GetStatus_cases W sw) as (Hok & Hclient & Hserver & Hother).
  fold c in Hok, Hclient, Hserver, Hother.
  split; [| split; [| split]]; intros Hc.
  - now rewrite Hclient.
  - now rewrite Hserver.
  - now rewrite Hother.
  - rewrite Hok by exact Hc. split; [reflexivity | discriminate].
Qed.

Lemma status_message_on_success_witness :
  snd (utils.GetStatus (utils.MkStatusWriter http.NewRecorder 200)) = "0K" /\
  snd (utils.GetStatus (utils.MkStatusWriter http.NewRecorder 200)) <> "OK".
Proof.
  apply (proj1 status_message_on_success _
           (utils.MkStatusWriter http.NewRecorder 200)).
  cbn; lia.
Defined.

(** ** Path classifier and the two observability middlewares *)

Lemma Contains_In (s : list string) (v : string) :
  utils.Contains s v = true <-> In v s.
Proof.
  induction s as [| x rest IH]; cbn [utils.Contains In].
  - split; [discriminate | tauto].
  - destruct (String.eqb_spec v x) as [-> | Hne].
    + split; auto.
    + rewrite IH. split; [auto |]. intros [Heq | Hin]; [congruence | exact Hin].
Qed.

Lemma CheckInValidPath_paths (r : Request) :
  utils.CheckInValidPath r = true <->
  Path (url r) = "/" \/ Path (url r) = "/status" \/ Path (url r) = "/ready" \/
  Path (url r) = "/metrics" \/ Path (url r) = "/*".
Proof.
  unfold utils.CheckInValidPath. rewrite Contains_In.
  unfold utils.invalidPaths. cbn [In]. intuition congruence.
Qed.

(** C1 (as amended). The decision is an exact match of the raw path against
    the five infrastructure paths.  On those, both middlewares are the next
    handler itself.  On every other path the tracing middleware starts
    exactly one span, whatever the handler does; the metrics middleware
    adds exactly one counter increment and one histogram observation after
    a handler that returns, and nothing after a handler that panics. *)
Theorem instrumentation_decided_by_raw_path :
  forall (next : http.Handler) (W : Type) (RW : http.ResponseWriter W)
         (w : W) (r : Request) (p : Proc),
    (utils.CheckInValidPath r = true <->
     Path (url r) = "/" \/ Path (url r) = "/status" \/ Path (url r) = "/ready" \/
     Path (url r) = "/metrics" \/ Path (url r) = "/*") /\
    (utils.CheckInValidPath r = true ->
     metrics.MetricsMiddleware next W RW w r p = next W RW w r p /\
     tracing.TracingMiddleware next W RW w r p = next W RW w r p) /\
    (utils.CheckInValidPath r = false ->
     (let o := next _ _ (utils.MkStatusWriter w http.StatusOK) r p in
      exists own : list MetricOp,
        metricsSink (out_proc (metrics.MetricsMiddleware next W RW w r p)) =
          metricsSink (out_proc o) ++ own /\
        match out_exit o with
        | Returned =>
            length own = 2%nat /\
            count is_CounterInc own = 1%nat /\
            count is_HistogramObserve own = 1%nat
        | Panicked _ => own = []
        end) /\
     (let started :=
        otel.Start (baggage.ContextWithoutBaggage (reqContext r)) (Path (url r)) p in
      let o := next _ _ (utils.MkStatusWriter w http.StatusOK)
                 (WithContext r started.1.1) started.2 in
      exists after : list SpanOp,
        spanSink started.2 = spanSink p ++ [SpanStart started.1.2 (Path (url r))] /\
        spanSink (out_proc (tracing.TracingMiddleware next W RW w r p)) =
          spanSink (out_proc o) ++ after /\
        count is_SpanStart (SpanStart started.1.2 (Path (url r)) :: after) = 1%nat)).
Proof.
  intros next W RW w r p. split; [apply CheckInValidPath_paths |]. split.
  - intros Hpath. unfold metrics.MetricsMiddleware, tracing.TracingMiddleware.
    now rewrite Hpath.
  - intros Hpath. split.
    + intros o. rewrite MetricsMiddleware_instrumented by exact Hpath.
      cbv zeta. fold o. cbn [out_proc]. rewrite metricsSink_emitted.
      eexists. split; [reflexivity |].
      destruct (out_exit o); [cbn; auto | reflexivity].
    + intros started o. rewrite TracingMiddleware_instrumented by exact Hpath.
      cbv zeta. fold started. fold o. cbn [out_proc]. rewrite spanSink_emitted.
      eexists. split; [reflexivity |]. split; [reflexivity |].
      destruct (out_exit o); reflexivity.
Qed.

Lemma instrumentation_decided_by_raw_path_witness :
  count is_CounterInc
    (metricsSink (out_proc (metrics.MetricsMiddleware (scripted user_not_found)
                              http.Recorder _ http.NewRecorder get_user_42 proc0)))
    = 1%nat /\
  tracing.TracingMiddleware (scripted user_not_found) http.Recorder _
    http.NewRecorder get_status proc0 =
  scripted user_not_found http.Recorder _ http.NewRecorder get_status proc0.
Proof.
  destruct (instrumentation_decided_by_raw_path (scripted user_not_found)
              http.Recorder _ http.NewRecorder get_user_42 proc0)
    as (_ & _ & Hinstrumented).
  destruct (Hinstrumented eq_refl) as [(own & Hsink & Hown) _].
  destruct (instrumentation_decided_by_raw_path (scripted user_not_found)
              http.Recorder _ http.NewRecorder get_status proc0)
    as (_ & Hexcluded & _).
  split; [| exact (proj2 (Hexcluded eq_refl))].
  rewrite Hsink. cbn in Hown |- *. apply Hown.
Defined.

(** C1 as stated fails: on the raw path /users/42, which is none of the
    five, a handler that panics leaves the metrics middleware with no
    counter increment and no histogram observation, not one of each. *)
Lemma metrics_silent_when_handler_panics :
  let out := metrics.MetricsMiddleware (scripted panics) http.Recorder _
               http.NewRecorder get_user_42 proc0 in
  utils.CheckInValidPath get_user_42 = false /\
  out_exit out = Panicked "boom" /\
  metricsSink (out_proc out) = [] /\
  count is_CounterInc (metricsSink (out_proc out)) <> 1%nat /\
  count is_HistogramObserve (metricsSink (out_proc out)) <> 1%nat.
Proof.
  cbv zeta. split; [reflexivity |]. split; [reflexivity |].
  split; [reflexivity |]. split; cbn; discriminate.
Qed.

(** C2 as stated fails: GET /users/42 is not excluded, resolves to
    /users/{id} and gets the status line 404, but the handler then panics:
    the counter is not incremented under ("/users/{id}", "GET", "404"), nor
    is anything observed. *)
Lemma no_labels_recorded_when_handler_panics :
  let out := metrics.MetricsMiddleware (scripted not_found_then_panics)
               http.Recorder _ http.NewRecorder get_user_42 proc0 in
  utils.CheckInValidPath get_user_42 = false /\
  chi.RoutePattern (chi.RouteContext (reqContext get_user_42)) (out_proc out) =
    "/users/{id}" /\
  http.recCodes (out_w out) = [404] /\
  ~ In (CounterInc "/users/{id}" "GET" "404") (metricsSink (out_proc out)) /\
  metricsSink (out_proc out) = [].
Proof.
  cbv zeta. split; [reflexivity |]. split; [reflexivity |].
  split; [reflexivity |]. split; [cbn; tauto | reflexivity].
Qed.

(** C2 (as amended). For a request that is not excluded and whose handler
    returns, the metrics middleware adds one counter increment and one
    observation of the elapsed time, both labelled (resolved route pattern,
    method, stored status code in decimal).  The stored code is the last
    one the handler wrote, 200 if it wrote none; a route context in which
    nothing is resolved gives the empty pattern; and GET /users/42,
    resolved to /users/{id} and answered 404, is counted under
    ("/users/{id}", "GET", "404"). *)
Theorem metrics_labels :
  (forall (next : http.Handler) (W : Type) (RW : http.ResponseWriter W)
          (w : W) (r : Request) (p : Proc),
     utils.CheckInValidPath r = false ->
     let o := next _ _ (utils.MkStatusWriter w http.StatusOK) r p in
     let path := chi.RoutePattern (chi.RouteContext (reqContext r)) (out_proc o) in
     let status := fmt.verb_d (fmt.Int (utils.StatusCode (out_w o))) in
     out_exit o = Returned ->
     metricsSink (out_proc (metrics.MetricsMiddleware next W RW w r p)) =
     metricsSink (out_proc o) ++
     [CounterInc path (Method r) status;
      HistogramObserve path (Method r) status (clock (out_proc o) - clock p)]) /\
  (forall (script : Request -> Proc -> list Call * Exit) (W : Type)
          (RW : http.ResponseWriter W) (w : W) (r : Request) (p : Proc),
     utils.StatusCode
       (out_w (scripted script _ _ (utils.MkStatusWriter w http.StatusOK) r p)) =
     last_code (fst (script r p)) 200) /\
  (forall (ctx : Context) (p : Proc),
     (chi.RouteContext ctx = None \/
      exists a, chi.RouteContext ctx = Some a /\ routeCtxs p !! a = None) ->
     chi.RoutePattern (chi.RouteContext ctx) p = "") /\
  metricsSink (out_proc (metrics.MetricsMiddleware (scripted user_not_found)
                           http.Recorder _ http.NewRecorder get_user_42 proc0)) =
    [CounterInc "/users/{id}" "GET" "404";
     HistogramObserve "/users/{id}" "GET" "404" 3000000].
Proof.
  split; [| split; [| split]].
  - intros next W RW w r p Hpath o path status Hreturned.
    rewrite MetricsMiddleware_instrumented by exact Hpath.
    cbv zeta. fold o. cbn [out_proc]. rewrite metricsSink_emitted.
    now rewrite Hreturned.
  - intros script W RW w r p. unfold scripted.
    rewrite perform_StatusWriter. reflexivity.
  - intros ctx p [Hnil | (a & Hsome & Hnone)].
    + now rewrite Hnil.
    + rewrite Hsome. cbn [chi.RoutePattern]. now rewrite Hnone.
  - reflexivity.
Qed.

Lemma metrics_labels_witness :
  metricsSink (out_proc (metrics.MetricsMiddleware (scripted body_only)
                           http.Recorder _ http.NewRecorder get_user_42 proc0)) =
    [CounterInc "" "GET" "200"; HistogramObserve "" "GET" "200" 0] /\
  chi.RoutePattern (chi.RouteContext (reqContext get_user_42)) proc0 = "".
Proof.
  split.
  - rewrite (proj1 metrics_labels (scripted body_only) http.Recorder _
               http.NewRecorder get_user_42 proc0 eq_refl eq_refl).
    reflexivity.
  - apply (proj1 (proj2 (proj2 metrics_labels))). right. exists 7%nat.
    split; reflexivity.
Defined.

(** C7. On a request that is not excluded, the tracing middleware opens
    the span before the handler runs and ends it exactly once, as its last
    act, whether the handler returns or panics; a panic leaves the
    middleware as the same panic, after the span is ended and with no
    annotation in between. *)
Theorem span_ended_exactly_once :
  forall (next : http.Handler) (W : Type) (RW : http.ResponseWriter W)
         (w : W) (r : Request) (p : Proc),
    utils.CheckInValidPath r = false ->
    let started :=
      otel.Start (baggage.ContextWithoutBaggage (reqContext r)) (Path (url r)) p in
    let span := started.1.2 in
    let o := next _ _ (utils.MkStatusWriter w http.StatusOK)
               (WithContext r started.1.1) started.2 in
    let out := tracing.TracingMiddleware next W RW w r p in
    spanSink started.2 = spanSink p ++ [SpanStart span (Path (url r))] /\
    out_exit out = out_exit o /\
    exists annotations : list SpanOp,
      spanSink (out_proc out) =
        spanSink (out_proc o) ++ annotations ++ [SpanEnd span] /\
      count (is_SpanEnd span) annotations = 0%nat /\
      count (is_SpanEnd span) (annotations ++ [SpanEnd span]) = 1%nat /\
      (forall v, out_exit o = Panicked v -> annotations = []).
Proof.
  intros next W RW w r p Hpath started span o out. unfold out.
  rewrite TracingMiddleware_instrumented by exact Hpath.
  cbv zeta. fold started. fold span. fold o. cbn [out_proc out_exit].
  split; [reflexivity |]. split; [reflexivity |].
  rewrite spanSink_emitted. eexists. split; [reflexivity |].
  destruct (out_exit o) as [| v'].
  - cbn [count is_SpanEnd app]. rewrite Nat.eqb_refl.
    split; [reflexivity |]. split; [reflexivity |]. discriminate.
  - cbn [count is_SpanEnd app]. rewrite Nat.eqb_refl.
    split; [reflexivity |]. split; [reflexivity |]. reflexivity.
Qed.

Lemma span_ended_exactly_once_witness :
  let out := tracing.TracingMiddleware (scripted panics) http.Recorder _
               http.NewRecorder get_user_42 proc0 in
  out_exit out = Panicked "boom" /\
  spanSink (out_proc out) = [SpanStart 0 "/users/42"; SpanEnd 0].
Proof.
  cbv zeta.
  destruct (span_ended_exactly_once (scripted panics) http.Recorder _
              http.NewRecorder get_user_42 proc0 eq_refl)
    as (_ & Hexit & annotations & Hsink & _ & _ & Hpanic).
  split; [exact Hexit |].
  rewrite Hsink. rewrite (Hpanic "boom" eq_refl). reflexivity.
Defined.

(** ** Router composition *)

Lemma New_follows_fixed_order (port : Z) (te me sc : bool) (origin : string)
    (subs : list httpkit.SubDomain) (p : Proc) :
  chi.middlewares (httpkit.Router (fst (httpkit.New port te me sc origin subs p))) =
  fixed_order me te sc.
Proof.
  unfold httpkit.New.
  assert (Hmount : forall (l : list httpkit.SubDomain) (mx : chi.Mux),
             chi.middlewares
               (fold_left (fun mx sd => chi.Mount (httpkit.Domain sd) mx) l mx) =
             chi.middlewares mx).
  { induction l as [| sd rest IH]; intros mx; cbn [fold_left]; [reflexivity |].
    now rewrite IH. }
  destruct te, me, sc; cbn [fst httpkit.Router]; rewrite Hmount; reflexivity.
Qed.

(** C5. [NewEmpty] with both flags set registers tracing before metrics:
    the chain is StripSlashes, tracing, metrics, RealIP, which is not the
    fixed order (metrics before tracing) that [New] follows for every
    combination of its flags.  With at most one of the two flags set,
    [NewEmpty] is in the fixed order too. *)
Theorem NewEmpty_registers_tracing_before_metrics :
  forall (port : bool) (p : Proc),
    chi.middlewares (httpkit.Router (fst (httpkit.NewEmpty port true true p))) =
      [chimiddleware_StripSlashes; tracing_TracingMiddleware;
       metrics_MetricsMiddleware; chimiddleware_RealIP] /\
    chi.middlewares (httpkit.Router (fst (httpkit.NewEmpty port true true p))) <>
      fixed_order true true false /\
    (forall (te me sc : bool) (n : Z) (origin : string)
            (subs : list httpkit.SubDomain),
       chi.middlewares (httpkit.Router (fst (httpkit.New n te me sc origin subs p))) =
       fixed_order me te sc) /\
    (forall te me : bool,
       te && me = false ->
       chi.middlewares (httpkit.Router (fst (httpkit.NewEmpty port te me p))) =
       fixed_order me te false).
Proof.
  intros port p. split; [reflexivity |]. split; [discriminate |]. split.
  - intros te me sc n origin subs. apply New_follows_fixed_order.
  - intros [] []; cbn; intros Hflags; first [discriminate | reflexivity].
Qed.

Lemma NewEmpty_registers_tracing_before_metrics_witness :
  chi.middlewares (httpkit.Router (fst (httpkit.NewEmpty true true false proc0))) =
  fixed_order false true false.
Proof.
  apply (proj2 (proj2 (proj2
           (NewEmpty_registers_tracing_before_metrics true proc0)))).
  reflexivity.
Defined.

(** ** CORS *)

Lemma cors_unfolded (next : http.Handler) (W : Type) (RW : http.ResponseWriter W)
    (w : W) (r : Request) (p : Proc) :
  let w' :=
    http.UpdateHeader (http.Header_Set "Access-Control-Max-Age" "3600")
      (http.UpdateHeader
         (http.Header_Set "Access-Control-Allow-Headers"
            "Content-Type, Authorization, User-Address, Token")
         (http.UpdateHeader
            (http.Header_Set "Access-Control-Allow-Methods"
               "GET, POST, PUT, DELETE, OPTIONS")
            (http.UpdateHeader
               (http.Header_Set "Access-Control-Allow-Origin" (CorsAllowOrigins p))
               w))) in
  httpkit.cors next W RW w r p =
  if String.eqb (Method r) "OPTIONS"
  then MkOut (http.WriteHeader 204 w') p Returned
  else next W RW w' r p.
Proof. reflexivity. Qed.

Lemma four_sets_carry_cors_headers (origin : string) (h : HeaderMap) :
  carries_cors_headers origin
    (http.Header_Set "Access-Control-Max-Age" "3600"
       (http.Header_Set "Access-Control-Allow-Headers"
          "Content-Type, Authorization, User-Address, Token"
          (http.Header_Set "Access-Control-Allow-Methods"
             "GET, POST, PUT, DELETE, OPTIONS"
             (http.Header_Set "Access-Control-Allow-Origin" origin h)))).
Proof.
  unfold carries_cors_headers, http.Header_Set.
  repeat split; simplify_map_eq; reflexivity.
Qed.

(** C6. On every request, whatever its path, [cors] sets the four headers
    (the origin being the configured one, which [New] stored when CORS was
    enabled); on OPTIONS it then writes 204 and the result does not depend
    on the wrapped handler, which is never run; on any other method the
    wrapped handler runs on the writer that already carries the headers. *)
Theorem cors_policy_and_preflight :
  forall (next : http.Handler) (W : Type) (RW : http.ResponseWriter W)
         (w : W) (r : Request) (p : Proc),
    let w' :=
      http.UpdateHeader (http.Header_Set "Access-Control-Max-Age" "3600")
        (http.UpdateHeader
           (http.Header_Set "Access-Control-Allow-Headers"
              "Content-Type, Authorization, User-Address, Token")
           (http.UpdateHeader
              (http.Header_Set "Access-Control-Allow-Methods"
                 "GET, POST, PUT, DELETE, OPTIONS")
              (http.UpdateHeader
                 (http.Header_Set "Access-Control-Allow-Origin" (CorsAllowOrigins p))
                 w))) in
    (Method r = "OPTIONS" ->
     httpkit.cors next W RW w r p =
       MkOut (http.WriteHeader http.StatusNoContent w') p Returned /\
     forall other : http.Handler,
       httpkit.cors other W RW w r p = httpkit.cors next W RW w r p) /\
    (Method r <> "OPTIONS" ->
     httpkit.cors next W RW w r p = next W RW w' r p) /\
    (HeaderReference W ->
     carries_cors_headers (CorsAllowOrigins p) (http.Header w') /\
     carries_cors_headers (CorsAllowOrigins p)
       (http.Header (http.WriteHeader http.StatusNoContent w'))) /\
    (forall (port : Z) (te me : bool) (origin : string)
            (subs : list httpkit.SubDomain),
       let built := httpkit.New port te me true origin subs p in
       CorsAllowOrigins (snd built) = origin /\
       In httpkit_cors (chi.middlewares (httpkit.Router (fst built))) /\
       httpkit.implementation httpkit_cors = Some httpkit.cors).
Proof.
  intros next W RW w r p w'. split; [| split; [| split]].
  - intros Hmethod. split.
    + rewrite cors_unfolded. now rewrite Hmethod.
    + intros other. rewrite !cors_unfolded. now rewrite Hmethod.
  - intros Hmethod. rewrite cors_unfolded.
    destruct (String.eqb_spec (Method r) "OPTIONS"); [contradiction | reflexivity].
  - intros Href.
    assert (Hw' : carries_cors_headers (CorsAllowOrigins p) (http.Header w')).
    { unfold w'. rewrite !Header_UpdateHeader. apply four_sets_carry_cors_headers. }
    split; [exact Hw' |]. now rewrite Header_WriteHeader.
  - intros port te me origin subs built. split; [reflexivity |].
    split; [| reflexivity].
    unfold built. rewrite New_follows_fixed_order.
    unfold fixed_order. rewrite !in_app_iff. cbn [In].
    right. right. right. left. now left.
Qed.

Lemma cors_policy_and_preflight_witness :
  let p := snd (httpkit.New 8080 false false true "https://a.example" [] proc0) in
  http.recCodes (out_w (httpkit.cors (scripted panics) http.Recorder _
                          http.NewRecorder options_status p)) = [204] /\
  carries_cors_headers "https://a.example"
    (http.Header (out_w (httpkit.cors (scripted panics) http.Recorder _
                           http.NewRecorder options_status p))) /\
  http.recBody (out_w (httpkit.cors (scripted body_only) http.Recorder _
                         http.NewRecorder get_status p)) = "hello".
Proof.
  intros p.
  destruct (cors_policy_and_preflight (scripted panics) http.Recorder _
              http.NewRecorder options_status p) as (Hoptions & _ & Hheaders & _).
  destruct (Hoptions eq_refl) as [Hout _].
  destruct (Hheaders _) as [_ Hcarried].
  split; [| split].
  - rewrite Hout. reflexivity.
  - rewrite Hout. exact Hcarried.
  - rewrite (proj1 (proj2 (cors_policy_and_preflight (scripted body_only)
                             http.Recorder _ http.NewRecorder get_status p)))
      by discriminate.
    reflexivity.
Defined.

Lemma construct_origin (p : Proc) (c : Construction) (origin : string) :
  CorsAllowOrigins p = origin ->
  CorsAllowOrigins (construct p c) = latest_origin [c] origin.
Proof.
  intros Hp. destruct c as [port te me sc o subs | port te me]; cbn [construct].
  - unfold httpkit.New. destruct sc; cbn; [reflexivity | exact Hp].
  - exact Hp.
Qed.

Lemma constructions_origin (later : list Construction) :
  forall (p : Proc) (origin : string),
    CorsAllowOrigins p = origin ->
    CorsAllowOrigins (fold_left construct later p) = latest_origin later origin.
Proof.
  induction later as [| c rest IH]; intros p origin Hp; cbn [fold_left].
  - exact Hp.
  - rewrite (IH (construct p c) (latest_origin [c] origin)).
    + destruct c as [port te me [] o subs | port te me]; reflexivity.
    + now apply construct_origin.
Qed.

Lemma latest_origin_agreeing (later : list Construction) (origin : string) :
  Forall (fun c => latest_origin [c] origin = origin) later ->
  latest_origin later origin = origin.
Proof.
  induction 1 as [| c rest Hc _ IH]; [reflexivity |].
  destruct c as [port te me [] o subs | port te me]; cbn in Hc |- *;
    [subst o |..]; exact IH.
Qed.

(** C8 as stated fails: a router built with origin https://a.example emits
    that origin until a second router is built with https://b.example;
    from then on the first router's [cors] emits the second origin. *)
Lemma later_router_changes_emitted_origin :
  let first := httpkit.New 8080 false false true "https://a.example" [] proc0 in
  let second := httpkit.New 8081 false false true "https://b.example" [] (snd first) in
  let emitted (p : Proc) :=
    http.Header_Get "Access-Control-Allow-Origin"
      (http.Header (out_w (httpkit.cors (scripted body_only) http.Recorder _
                             http.NewRecorder get_user_42 p))) in
  In httpkit_cors (chi.middlewares (httpkit.Router (fst first))) /\
  emitted (snd first) = "https://a.example" /\
  emitted (snd second) = "https://b.example" /\
  emitted (snd second) <> emitted (snd first).
Proof.
  cbv zeta. split; [cbn; tauto |]. split; [reflexivity |].
  split; [reflexivity |]. discriminate.
Qed.

(** C8 (as amended). The origin [cors] emits is the current value of the
    package variable, which after any sequence of constructions is the
    origin given to the latest one that enabled CORS.  A router therefore
    keeps emitting its own origin as long as every later construction
    either leaves CORS disabled or passes the same origin. *)
Theorem cors_origin_is_latest_configured :
  forall (port : Z) (te me : bool) (origin : string)
         (subs : list httpkit.SubDomain) (p : Proc) (later : list Construction)
         (next : http.Handler) (W : Type) (RW : http.ResponseWriter W)
         (w : W) (r : Request),
    HeaderReference W ->
    let built := httpkit.New port te me true origin subs p in
    let p' := fold_left construct later (snd built) in
    CorsAllowOrigins p' = latest_origin later origin /\
    (Method r = "OPTIONS" ->
     http.Header (out_w (httpkit.cors next W RW w r p'))
       !! "Access-Control-Allow-Origin" = Some [latest_origin later origin]) /\
    (Method r <> "OPTIONS" ->
     exists w' : W,
       httpkit.cors next W RW w r p' = next W RW w' r p' /\
       http.Header w' !! "Access-Control-Allow-Origin" =
         Some [latest_origin later origin]) /\
    (Forall (fun c => latest_origin [c] origin = origin) later ->
     latest_origin later origin = origin).
Proof.
  intros port te me origin subs p later next W RW w r Href built p'.
  assert (Hp' : CorsAllowOrigins p' = latest_origin later origin).
  { unfold p'. now apply constructions_origin. }
  split; [exact Hp' |]. split; [| split; [| apply latest_origin_agreeing]].
  - intros Hmethod. rewrite cors_unfolded. cbv zeta.
    rewrite Hmethod, String.eqb_refl. cbn [out_w].
    rewrite Header_WriteHeader, !Header_UpdateHeader, Hp'.
    apply four_sets_carry_cors_headers.
  - intros Hmethod. rewrite cors_unfolded. cbv zeta.
    destruct (String.eqb_spec (Method r) "OPTIONS") as [Heq | _];
      [contradiction |].
    eexists. split; [reflexivity |].
    rewrite !Header_UpdateHeader, Hp'. apply four_sets_carry_cors_headers.
Qed.

Lemma cors_origin_is_latest_configured_witness :
  let later := [ByNewEmpty true true true;
                ByNew 9090 true true false "https://ignored.example" [];
                ByNew 9091 false true true "https://a.example" []] in
  let p' := fold_left construct later
              (snd (httpkit.New 8080 false false true "https://a.example" [] proc0)) in
  CorsAllowOrigins p' = "https://a.example" /\
  http.Header (out_w (httpkit.cors (scripted body_only) http.Recorder _
                        http.NewRecorder options_status p'))
    !! "Access-Control-Allow-Origin" = Some ["https://a.example"].
Proof.
  intros later p'.
  destruct (cors_origin_is_latest_configured 8080 false false "https://a.example"
              [] proc0 later (scripted body_only) http.Recorder _
              http.NewRecorder options_status _)
    as (Horigin & Hoptions & _ & Hagree).
  assert (Hsame : latest_origin later "https://a.example" = "https://a.example").
  { apply Hagree. unfold later.
    constructor; [reflexivity |]. constructor; [reflexivity |].
    constructor; [reflexivity |]. constructor. }
  split.
  - unfold p'. rewrite Horigin. exact Hsame.
  - unfold p'. rewrite (Hoptions eq_refl). now rewrite Hsame.
Defined.

(** ** Server lifecycle *)

(** C9. [Start] returns an error exactly when [ListenAndServe] returned one
    other than [ErrServerClosed], and then it is that very error; when
    [ListenAndServe] returned [ErrServerClosed], [Start] returns nil. *)
Theorem Start_reports_only_unexpected_errors :
  forall (ListenAndServe : httpkit.Server -> option http.error)
         (h : httpkit.Handler),
    (httpkit.Start ListenAndServe h <> None <->
     exists e, ListenAndServe (httpkit.server h) = Some e /\
               e <> http.ErrServerClosed) /\
    (forall e, httpkit.Start ListenAndServe h = Some e ->
               ListenAndServe (httpkit.server h) = Some e) /\
    (ListenAndServe (httpkit.server h) = Some http.ErrServerClosed ->
     httpkit.Start ListenAndServe h = None).
Proof.
  intros ListenAndServe h. unfold httpkit.Start.
  destruct (ListenAndServe (httpkit.server h)) as [[| msg] |]; cbn.
  - split; [| split]; [| discriminate | reflexivity].
    split; [congruence |]. intros (e & He & Hne). congruence.
  - split; [| split]; [| auto | discriminate].
    split; [| discriminate]. intros _. exists (http.ErrOther msg).
    split; [reflexivity | discriminate].
  - split; [| split]; [| discriminate | discriminate].
    split; [congruence |]. intros (e & He & _). discriminate.
Qed.

Lemma Start_reports_only_unexpected_errors_witness :
  let h := fst (httpkit.New 8080 true true false "" [] proc0) in
  httpkit.Start (fun _ => Some http.ErrServerClosed) h = None /\
  httpkit.Start
    (fun _ => Some (http.ErrOther "listen tcp :8080: bind: address already in use")) h
    <> None.
Proof.
  intros h. split.
  - apply (proj2 (proj2 (Start_reports_only_unexpected_errors
                           (fun _ => Some http.ErrServerClosed) h))).
    reflexivity.
  - apply (proj1 (Start_reports_only_unexpected_errors
                    (fun _ => Some (http.ErrOther
                       "listen tcp :8080: bind: address already in use")) h)).
    eexists. split; [reflexivity | discriminate].
Defined.

(** ** Listen addresses *)

Lemma string_of_uint_digits (d : Decimal.uint) :
  all_digits (NilEmpty.string_of_uint d) = true.
Proof. induction d; cbn; auto. Qed.

Lemma decimal_nonneg_port_addr (n : Z) :
  0 <= n -> is_port_addr (":" +:+ fmt.decimal n) = true.
Proof.
  intros Hn. unfold fmt.decimal.
  destruct n as [| q | q]; [reflexivity | | lia].
  cbn [Z.to_int NilZero.string_of_int].
  pose proof (string_of_uint_digits (Pos.to_uint q)) as Hdigits.
  pose proof (DecimalPos.Unsigned.to_uint_nonnil q) as Hnonnil.
  destruct (Pos.to_uint q); [contradiction | ..]; exact Hdigits.
Qed.

Lemma decimal_head (n : Z) :
  exists c rest, fmt.decimal n = String c rest /\
                 (is_digit c = true \/ c = "-"%char).
Proof.
  unfold fmt.decimal.
  destruct n as [| q | q]; cbn [Z.to_int NilZero.string_of_int].
  - exists "0"%char, EmptyString. split; [reflexivity | now left].
  - destruct (Pos.to_uint q); cbn; eexists _, _; (split; [reflexivity | now left]).
  - eexists _, _. split; [reflexivity | now right].
Qed.

(** C10. For every call of [NewEmpty] the listen address is the bad-verb
    rendering of its boolean first parameter, [:%!d(bool=true)] or
    [:%!d(bool=false)]: not a colon followed by decimal digits, and not the
    address of any integer port; [New] yields a colon followed by the
    decimal port, a well-formed port address for every port from 0 on. *)
Theorem NewEmpty_address_is_not_a_port :
  forall (port tracerEnable metricsEnable : bool) (p : Proc),
    let addr := httpkit.Addr (httpkit.server
                  (fst (httpkit.NewEmpty port tracerEnable metricsEnable p))) in
    addr = (if port then ":%!d(bool=true)" else ":%!d(bool=false)") /\
    is_port_addr addr = false /\
    (forall n : Z, addr <> httpkit.Sprintf_addr (fmt.Int n)) /\
    (forall (n : Z) (te me sc : bool) (origin : string)
            (subs : list httpkit.SubDomain),
       httpkit.Addr (httpkit.server (fst (httpkit.New n te me sc origin subs p))) =
         ":" +:+ fmt.decimal n /\
       (0 <= n ->
        is_port_addr
          (httpkit.Addr (httpkit.server (fst (httpkit.New n te me sc origin subs p))))
        = true)).
Proof.
  intros port te me p addr.
  assert (Haddr : addr = (if port then ":%!d(bool=true)" else ":%!d(bool=false)")).
  { unfold addr. destruct port; reflexivity. }
  split; [exact Haddr |]. split; [| split].
  - rewrite Haddr. destruct port; reflexivity.
  - intros n Heq. rewrite Haddr in Heq. unfold httpkit.Sprintf_addr in Heq.
    cbn [fmt.verb_d] in Heq.
    destruct (decimal_head n) as (c & rest & Hdec & Hc). rewrite Hdec in Heq.
    destruct port; cbn in Heq; injection Heq as Hhead _; subst c;
      destruct Hc as [Hc | Hc]; cbn in Hc; discriminate.
  - intros n te' me' sc origin subs.
    assert (Hnew : httpkit.Addr (httpkit.server
                     (fst (httpkit.New n te' me' sc origin subs p))) =
                   ":" +:+ fmt.decimal n).
    { unfold httpkit.New. destruct sc; reflexivity. }
    split; [exact Hnew |]. intros Hn. rewrite Hnew.
    now apply decimal_nonneg_port_addr.
Qed.

Lemma NewEmpty_address_is_not_a_port_witness :
  is_port_addr
    (httpkit.Addr (httpkit.server
       (fst (httpkit.New 8080 true true false "" [] proc0)))) = true.
Proof.
  apply (proj2 (proj2 (proj2 (NewEmpty_address_is_not_a_port true true true proc0)))
           8080 true true false "" []).
  lia.
Defined.

(* ===================================================================== *)
(** * Further properties of the code *)
(* ===================================================================== *)

(** ** The middlewares and the response *)

Lemma emitted_metrics_keep_the_rest (ops : list MetricOp) :
  forall p : Proc,
    let q := fold_left (fun q op => emit_metric op q) ops p in
    CorsAllowOrigins q = CorsAllowOrigins p /\ clock q = clock p /\
    spanSink q = spanSink p /\ routeCtxs q = routeCtxs p.
Proof.
  induction ops as [| op rest IH]; intros p; cbn [fold_left]; [tauto |].
  destruct (IH (emit_metric op p)) as (H1 & H2 & H3 & H4).
  cbv zeta. rewrite H1, H2, H3, H4. cbn. tauto.
Qed.

Lemma emitted_spans_keep_the_rest (ops : list SpanOp) :
  forall p : Proc,
    let q := fold_left (fun q op => emit_span op q) ops p in
    CorsAllowOrigins q = CorsAllowOrigins p /\ clock q = clock p /\
    metricsSink q = metricsSink p /\ routeCtxs q = routeCtxs p.
Proof.
  induction ops as [| op rest IH]; intros p; cbn [fold_left]; [tauto |].
  destruct (IH (emit_span op p)) as (H1 & H2 & H3 & H4).
  cbv zeta. rewrite H1, H2, H3, H4. cbn. tauto.
Qed.

Lemma scripted_on_StatusWriter (script : Request -> Proc -> list Call * Exit)
    (W : Type) (RW : http.ResponseWriter W) (w : W) (c : Z) (r : Request) (p : Proc) :
  scripted script _ _ (utils.MkStatusWriter w c) r p =
  MkOut (utils.MkStatusWriter (out_w (scripted script W RW w r p))
           (last_code (fst (script r p)) c))
        (out_proc (scripted script W RW w r p))
        (out_exit (scripted script W RW w r p)).
Proof.
  unfold scripted. rewrite perform_StatusWriter.
  destruct (perform (fst (script r p)) w p). reflexivity.
Qed.

(** X1. Whatever the path and however the handler ends, the metrics
    middleware leaves the response as the handler made it: the client's
    writer, the way the handler exits and every part of the process state
    but the metrics sink are those of running the handler alone. *)
Theorem MetricsMiddleware_is_transparent :
  forall (script : Request -> Proc -> list Call * Exit) (W : Type)
         (RW : http.ResponseWriter W) (w : W) (r : Request) (p : Proc),
    let alone := scripted script W RW w r p in
    let out := metrics.MetricsMiddleware (scripted script) W RW w r p in
    out_w out = out_w alone /\
    out_exit out = out_exit alone /\
    CorsAllowOrigins (out_proc out) = CorsAllowOrigins (out_proc alone) /\
    clock (out_proc out) = clock (out_proc alone) /\
    spanSink (out_proc out) = spanSink (out_proc alone) /\
    routeCtxs (out_proc out) = routeCtxs (out_proc alone).
Proof.
  intros script W RW w r p alone out.
  destruct (utils.CheckInValidPath r) eqn:Hpath.
  - unfold out, metrics.MetricsMiddleware. rewrite Hpath. fold alone. tauto.
  - unfold out. rewrite MetricsMiddleware_instrumented by exact Hpath.
    cbv zeta. rewrite scripted_on_StatusWriter. fold alone.
    cbn [out_w out_proc out_exit utils.ResponseWriter].
    split; [reflexivity |]. split; [reflexivity |].
    apply emitted_metrics_keep_the_rest.
Qed.

(** X2. On a path that is not excluded the tracing middleware runs the
    handler on a copy of the request whose context has no baggage, keeps
    the route context and carries the new span, every other field being
    the caller's; the process state it hands over differs from its own by
    the span's start record only, and the client's writer and the exit are
    the handler's. *)
Theorem TracingMiddleware_runs_handler_without_baggage :
  forall (next : http.Handler) (W : Type) (RW : http.ResponseWriter W)
         (w : W) (r : Request) (p : Proc),
    utils.CheckInValidPath r = false ->
    exists (r' : Request) (span : nat),
      span = length (spanSink p) /\
      ctxBaggage (reqContext r') = [] /\
      ctxRoute (reqContext r') = ctxRoute (reqContext r) /\
      ctxSpan (reqContext r') = Some span /\
      Method r' = Method r /\ url r' = url r /\ ReqHeader r' = ReqHeader r /\
      Host r' = Host r /\ RequestURI r' = RequestURI r /\
      let o := next _ _ (utils.MkStatusWriter w http.StatusOK) r'
                 (emit_span (SpanStart span (Path (url r))) p) in
      out_w (tracing.TracingMiddleware next W RW w r p) =
        utils.ResponseWriter (out_w o) /\
      out_exit (tracing.TracingMiddleware next W RW w r p) = out_exit o.
Proof.
  intros next W RW w r p Hpath.
  rewrite TracingMiddleware_instrumented by exact Hpath. cbv zeta.
  exists (WithContext r
            (otel.Start (baggage.ContextWithoutBaggage (reqContext r))
               (Path (url r)) p).1.1),
         (length (spanSink p)).
  do 9 (split; [reflexivity |]). split; reflexivity.
Qed.

Lemma TracingMiddleware_runs_handler_without_baggage_witness :
  exists r' : Request,
    ctxBaggage (reqContext r') = [] /\
    ctxBaggage (reqContext get_user_42) = [("tenant", "acme")] /\
    out_exit (tracing.TracingMiddleware (scripted panics) http.Recorder _
                http.NewRecorder get_user_42 proc0) =
    out_exit (scripted panics _ _
                (utils.MkStatusWriter http.NewRecorder http.StatusOK) r'
                (emit_span (SpanStart 0 "/users/42") proc0)).
Proof.
  destruct (TracingMiddleware_runs_handler_without_baggage (scripted panics)
              http.Recorder _ http.NewRecorder get_user_42 proc0 eq_refl)
    as (r' & span & Hspan & Hbaggage & _ & _ & _ & _ & _ & _ & _ & _ & Hexit).
  exists r'. split; [exact Hbaggage |]. split; [reflexivity |].
  rewrite Hexit, Hspan. reflexivity.
Defined.

(** X3. After a handler that returns, the span receives, in this order:
    its status from the last status code written (200 if none), the route
    pattern as its name (it was started under the raw path), the four
    attributes (raw path, that status code, method, full URL) and its end.
    The full URL has the scheme https exactly when the first
    X-Forwarded-Proto value is the string https, and http otherwise. *)
Theorem span_annotated_after_return :
  forall (script : Request -> Proc -> list Call * Exit) (W : Type)
         (RW : http.ResponseWriter W) (w : W) (r : Request) (p : Proc),
    utils.CheckInValidPath r = false ->
    let started :=
      otel.Start (baggage.ContextWithoutBaggage (reqContext r)) (Path (url r)) p in
    let span := started.1.2 in
    let does := script (WithContext r started.1.1) started.2 in
    let alone := scripted script W RW w (WithContext r started.1.1) started.2 in
    let code := last_code (fst does) 200 in
    let scheme :=
      if String.eqb (http.Header_Get "X-Forwarded-Proto" (ReqHeader r)) "https"
      then "https://" else "http://" in
    snd does = Returned ->
    spanSink started.2 = spanSink p ++ [SpanStart span (Path (url r))] /\
    spanSink (out_proc (tracing.TracingMiddleware (scripted script) W RW w r p)) =
    spanSink (out_proc alone) ++
    [SpanSetStatus span
       (fst (utils.GetStatus (utils.MkStatusWriter (out_w alone) code)))
       (snd (utils.GetStatus (utils.MkStatusWriter (out_w alone) code)));
     SpanSetName span
       (chi.RoutePattern (chi.RouteContext (reqContext r)) (out_proc alone));
     SpanSetAttributes span
       [KVString "extra_path" (Path (url r)); HTTPStatusCode code;
        HTTPMethod (Method r);
        HTTPURL (scheme +:+ Host r +:+ RequestURI r)];
     SpanEnd span].
Proof.
  intros script W RW w r p Hpath started span does alone code scheme Hreturned.
  split; [reflexivity |].
  rewrite TracingMiddleware_instrumented by exact Hpath. cbv zeta.
  fold started. fold span. rewrite scripted_on_StatusWriter. fold alone. fold does.
  cbn [out_w out_proc out_exit]. rewrite spanSink_emitted.
  assert (Hexit : out_exit alone = Returned).
  { unfold alone, scripted. fold does.
    destruct (perform (fst does) w started.2). exact Hreturned. }
  rewrite Hexit. fold code. cbn [app].
  unfold tracing.getFullURL, scheme.
  destruct (String.eqb _ "https"); reflexivity.
Qed.

Lemma span_annotated_after_return_witness :
  spanSink (out_proc (tracing.TracingMiddleware (scripted user_not_found)
                        http.Recorder _ http.NewRecorder get_user_42 proc0)) =
  [SpanStart 0 "/users/42";
   SpanSetStatus 0 otelcodes.Error "Client Error";
   SpanSetName 0 "/users/{id}";
   SpanSetAttributes 0
     [KVString "extra_path" "/users/42"; HTTPStatusCode 404; HTTPMethod "GET";
      HTTPURL "http://api.example/users/42"];
   SpanEnd 0].
Proof.
  rewrite (proj2 (span_annotated_after_return user_not_found http.Recorder _
                    http.NewRecorder get_user_42 proc0 eq_refl eq_refl)).
  reflexivity.
Defined.

Lemma RoutePattern_reads_routeCtxs (x : option nat) (p q : Proc) :
  routeCtxs q = routeCtxs p -> chi.RoutePattern x q = chi.RoutePattern x p.
Proof. intros Hsame. unfold chi.RoutePattern. now rewrite Hsame. Qed.

(** X4. With the metrics middleware around the tracing one, as [New]
    composes them, and a handler that returns on a path that is not
    excluded: the client's writer is the handler's; the counter and the
    histogram are labelled with the route pattern and the last status code
    written (200 if none), and the span is renamed to that same pattern and
    given that same status code, although each middleware keeps a status
    writer of its own. *)
Theorem metrics_and_tracing_agree :
  forall (script : Request -> Proc -> list Call * Exit) (W : Type)
         (RW : http.ResponseWriter W) (w : W) (r : Request) (p : Proc),
    utils.CheckInValidPath r = false ->
    let started :=
      otel.Start (baggage.ContextWithoutBaggage (reqContext r)) (Path (url r)) p in
    let span := started.1.2 in
    let does := script (WithContext r started.1.1) started.2 in
    let alone := scripted script W RW w (WithContext r started.1.1) started.2 in
    let code := last_code (fst does) 200 in
    let pattern :=
      chi.RoutePattern (chi.RouteContext (reqContext r)) (out_proc alone) in
    let out := metrics.MetricsMiddleware
                 (tracing.TracingMiddleware (scripted script)) W RW w r p in
    snd does = Returned ->
    out_w out = out_w alone /\
    out_exit out = Returned /\
    metricsSink (out_proc out) =
      metricsSink (out_proc alone) ++
      [CounterInc pattern (Method r) (fmt.verb_d (fmt.Int code));
       HistogramObserve pattern (Method r) (fmt.verb_d (fmt.Int code))
         (clock (out_proc alone) - clock p)] /\
    In (SpanSetName span pattern) (spanSink (out_proc out)) /\
    In (SpanSetAttributes span
          [KVString "extra_path" (Path (url r)); HTTPStatusCode code;
           HTTPMethod (Method r); HTTPURL (tracing.getFullURL r)])
       (spanSink (out_proc out)).
Proof.
  intros script W RW w r p Hpath started span does alone code pattern out Hreturned.
  assert (Hexit : out_exit alone = Returned).
  { unfold alone, scripted. fold does.
    destruct (perform (fst does) w started.2). exact Hreturned. }
  unfold out. rewrite MetricsMiddleware_instrumented by exact Hpath. cbv zeta.
  rewrite TracingMiddleware_instrumented by exact Hpath. cbv zeta.
  fold started. fold span. rewrite !scripted_on_StatusWriter. fold alone. fold does.
  cbn [out_w out_proc out_exit utils.ResponseWriter utils.StatusCode].
  rewrite Hexit. fold code.
  match goal with
  | |- context [fold_left (fun q op => emit_span op q) ?ops (out_proc alone)] =>
      destruct (emitted_spans_keep_the_rest ops (out_proc alone))
        as (_ & Hclock & Hmetrics & Hroutes);
      pose proof (spanSink_emitted ops (out_proc alone)) as Hspans;
      set (annotated := fold_left (fun q op => emit_span op q) ops (out_proc alone))
        in *
  end.
  split; [reflexivity |]. split; [reflexivity |].
  rewrite metricsSink_emitted, Hmetrics, Hclock.
  rewrite (RoutePattern_reads_routeCtxs _ (out_proc alone) annotated Hroutes).
  split; [reflexivity |].
  match goal with
  | |- context [fold_left (fun q op => emit_metric op q) ?ops annotated] =>
      destruct (emitted_metrics_keep_the_rest ops annotated) as (_ & _ & Hsame & _)
  end.
  rewrite Hsame, Hspans.
  split; apply in_or_app; right; cbn [app In]; auto.
Qed.

Lemma metrics_and_tracing_agree_witness :
  let out := metrics.MetricsMiddleware
               (tracing.TracingMiddleware (scripted user_not_found))
               http.Recorder _ http.NewRecorder get_user_42 proc0 in
  metricsSink (out_proc out) =
    [CounterInc "/users/{id}" "GET" "404";
     HistogramObserve "/users/{id}" "GET" "404" 3000000] /\
  In (SpanSetName 0 "/users/{id}") (spanSink (out_proc out)).
Proof.
  destruct (metrics_and_tracing_agree user_not_found http.Recorder _
              http.NewRecorder get_user_42 proc0 eq_refl eq_refl)
    as (_ & _ & Hmetrics & Hname & _).
  split; [rewrite Hmetrics; reflexivity | exact Hname].
Defined.



(** ** The path classifier and the routes of the constructors *)

Ltac peel_path H s :=
  repeat (destruct s as [| ? s];
          cbv [String.append] in H; fold String.append in H;
          [try congruence | first [congruence | injection H as ? H]]).

(** X6. The exclusion does no normalization: a raw path that ends in a
    slash, other than the root path itself, is never excluded, so the
    slash-terminated variants of the probes are instrumented. *)
Theorem trailing_slash_is_never_excluded :
  forall (r : Request) (s : string),
    s <> "" ->
    Path (url r) = s +:+ "/" ->
    utils.CheckInValidPath r = false.
Proof.
  intros r s Hs Hpath.
  destruct (utils.CheckInValidPath r) eqn:Hcheck; [| reflexivity].
  apply CheckInValidPath_paths in Hcheck. rewrite Hpath in Hcheck.
  destruct Hcheck as [H | [H | [H | [H | H]]]]; exfalso; peel_path H s.
Qed.

Lemma trailing_slash_is_never_excluded_witness :
  utils.CheckInValidPath get_status_slash = false.
Proof.
  apply (trailing_slash_is_never_excluded _ "/status"); [discriminate | reflexivity].
Defined.

Lemma mounts_of_subdomains (subs : list httpkit.SubDomain) :
  forall mx : chi.Mux,
    let mounted :=
      fold_left (fun mx sd => chi.Mount (httpkit.Domain sd) mx) subs mx in
    chi.middlewares mounted = chi.middlewares mx /\
    chi.routes mounted = chi.routes mx /\
    chi.mounts mounted = chi.mounts mx ++ map httpkit.Domain subs.
Proof.
  induction subs as [| sd rest IH]; intros mx; cbn [fold_left map].
  - now rewrite app_nil_r.
  - destruct (IH (chi.Mount (httpkit.Domain sd) mx)) as (Hm & Hr & Hmounts).
    cbv zeta. rewrite Hm, Hr, Hmounts. cbn [chi.Mount chi.middlewares chi.routes
      chi.mounts]. now rewrite <- app_assoc.
Qed.

Lemma New_router (port : Z) (te me sc : bool) (origin : string)
    (subs : list httpkit.SubDomain) (p : Proc) :
  let h := fst (httpkit.New port te me sc origin subs p) in
  chi.routes (httpkit.Router h) = [("GET", "/"); ("GET", "/ready"); ("GET", "/status")] /\
  chi.mounts (httpkit.Router h) = map httpkit.Domain subs /\
  httpkit.SrvHandler (httpkit.server h) = httpkit.Router h.
Proof.
  unfold httpkit.New.
  destruct sc; cbn [fst httpkit.Router httpkit.server httpkit.SrvHandler];
    match goal with
    | |- context [fold_left _ subs ?mx] =>
        destruct (mounts_of_subdomains subs mx) as (_ & Hr & Hm)
    end; rewrite Hr, Hm; destruct te, me; cbn; auto.
Qed.

(** X7. Every route that [New] or [NewEmpty] registers itself is an
    excluded path: on a request whose raw path is the pattern of such a
    route, the metrics and tracing middlewares of the chain, in either
    order, are the next handler itself. *)
Theorem fixed_routes_are_never_instrumented :
  forall (h : httpkit.Handler) (method pattern : string) (r : Request)
         (next : http.Handler) (W : Type) (RW : http.ResponseWriter W)
         (w : W) (p : Proc),
    ((exists port te me sc origin subs q,
        h = fst (httpkit.New port te me sc origin subs q)) \/
     (exists port te me q, h = fst (httpkit.NewEmpty port te me q))) ->
    In (method, pattern) (chi.routes (httpkit.Router h)) ->
    Path (url r) = pattern ->
    utils.CheckInValidPath r = true /\
    metrics.MetricsMiddleware (tracing.TracingMiddleware next) W RW w r p =
      next W RW w r p /\
    tracing.TracingMiddleware (metrics.MetricsMiddleware next) W RW w r p =
      next W RW w r p.
Proof.
  intros h method pattern r next W RW w p Hbuilt Hroute Hpath.
  assert (Hroutes : chi.routes (httpkit.Router h) =
                    [("GET", "/"); ("GET", "/ready"); ("GET", "/status")]).
  { destruct Hbuilt as [(port & te & me & sc & origin & subs & q & ->)
                       | (port & te & me & q & ->)].
    - apply New_router.
    - destruct te, me; reflexivity. }
  assert (Hcheck : utils.CheckInValidPath r = true).
  { apply CheckInValidPath_paths. rewrite Hpath. rewrite Hroutes in Hroute.
    cbn [In] in Hroute.
    destruct Hroute as [H | [H | [H | []]]]; injection H as _ <-; tauto. }
  split; [exact Hcheck |].
  unfold metrics.MetricsMiddleware, tracing.TracingMiddleware.
  rewrite Hcheck. split; reflexivity.
Qed.

Lemma fixed_routes_are_never_instrumented_witness :
  metrics.MetricsMiddleware (tracing.TracingMiddleware (scripted body_only))
    http.Recorder _ http.NewRecorder get_status proc0 =
  scripted body_only http.Recorder _ http.NewRecorder get_status proc0.
Proof.
  apply (fixed_routes_are_never_instrumented
           (fst (httpkit.New 8080 true true true "https://a.example" [] proc0))
           "GET" "/status" get_status).
  - left. exists 8080, true, true, true, "https://a.example", [], proc0. reflexivity.
  - cbn. tauto.
  - reflexivity.
Defined.


(** ** Request and response helpers *)

(** X9. [ReadBody] has three outcomes only: nil, [ErrEmptyBody] and
    [ErrInvalidBody]; the error of the read or of the decoder is never
    passed on.  It returns [ErrEmptyBody] exactly when the read succeeds
    with no bytes, nil exactly when the read succeeds with bytes that
    decode, and the target is untouched unless the decoder ran. *)
Theorem ReadBody_outcomes :
  forall (Target : Type)
         (Unmarshal : string -> Target -> Target * option utils_go.error)
         (ReadAll : Request -> string * option utils_go.error)
         (r : Request) (v : Target),
    let body := fst (ReadAll r) in
    let out := utils_go.ReadBody Target Unmarshal ReadAll r v in
    (snd out = None \/ snd out = Some utils_go.ErrEmptyBody \/
     snd out = Some utils_go.ErrInvalidBody) /\
    (snd out = Some utils_go.ErrEmptyBody <->
     snd (ReadAll r) = None /\ body = "") /\
    (snd out = None <->
     snd (ReadAll r) = None /\ body <> "" /\ snd (Unmarshal body v) = None) /\
    (snd (ReadAll r) <> None \/ body = "" -> fst out = v) /\
    (snd (ReadAll r) = None -> body <> "" -> fst out = fst (Unmarshal body v)).
Proof.
  intros Target Unmarshal ReadAll r v body out.
  unfold out, utils_go.ReadBody. subst body.
  destruct (ReadAll r) as [body [e |]]; cbn [fst snd].
  - split; [tauto |]. split; [split; [discriminate | intros [H _]; discriminate] |].
    split; [split; [discriminate | intros [H _]; discriminate] |].
    split; [reflexivity | discriminate].
  - destruct body as [| c rest]; cbn [String.length Nat.eqb fst snd].
    + split; [tauto |]. split; [tauto |].
      split; [split; [discriminate | intros (_ & H & _); congruence] |].
      split; [reflexivity | congruence].
    + destruct (Unmarshal (String c rest) v) as [v' [e |]]; cbn [fst snd].
      * split; [tauto |].
        split; [split; [discriminate | intros [_ H]; discriminate] |].
        split; [split; [discriminate | intros (_ & _ & H); discriminate] |].
        split; [intros [H | H]; congruence | reflexivity].
      * split; [tauto |].
        split; [split; [discriminate | intros [_ H]; discriminate] |].
        split; [split; [intros _; repeat split; discriminate | reflexivity] |].
        split; [intros [H | H]; congruence | reflexivity].
Qed.

Lemma ReadBody_outcomes_witness :
  utils_go.ReadBody string toy_Unmarshal (fun _ => ("", None)) get_user_42 "old" =
    ("old", Some utils_go.ErrEmptyBody) /\
  snd (utils_go.ReadBody string toy_Unmarshal (fun _ => ("{}", None))
         get_user_42 "old") = None.
Proof.
  split.
  - pose proof (ReadBody_outcomes string toy_Unmarshal (fun _ => ("", None))
                  get_user_42 "old") as (_ & Hempty & _ & Hsame & _).
    cbv zeta in Hempty, Hsame. cbn [fst snd] in Hempty, Hsame.
    apply injective_projections; cbn [fst snd].
    + apply Hsame. now right.
    + apply Hempty. split; reflexivity.
  - apply (proj1 (proj2 (proj2 (ReadBody_outcomes string toy_Unmarshal
                                  (fun _ => ("{}", None)) get_user_42 "old")))).
    repeat split; discriminate.
Defined.

Lemma Fault_writer (Any : Type) (OfString : string -> Any)
    (OfMap : gmap string Any -> Any) (Marshal : Any -> string + utils_go.error)
    (W : Type) (RW : http.ResponseWriter W) (w : W) (httpStatus : Z)
    (code message : string) :
  let headed :=
    http.WriteHeader httpStatus
      (http.UpdateHeader
         (http.Header_Set "Content-Type" "application/json; charset=utf-8") w) in
  let response : gmap string Any :=
    <["message" := OfString message]>
      (<["msg" := OfString message]> (<["code" := OfString code]> ∅)) in
  utils_go.Fault Any OfString OfMap Marshal w httpStatus code message =
  match Marshal (OfMap response) with
  | inl b => (http.Write (b +:+ utils_go.newline) headed, None)
  | inr e => (headed, Some e)
  end.
Proof. reflexivity. Qed.



(** X11. [WriteBody] answers with the caller's status code when the body
    encodes, and with 500 and the fault code internal_server_error when it
    does not, returning the encoder's error; either way exactly one status
    line is written and the content type is JSON.  A status writer around
    the writer stores the code that was sent and passes the same calls on. *)
Theorem WriteBody_status :
  forall (Any : Type) (OfString : string -> Any) (OfMap : gmap string Any -> Any)
         (Marshal : Any -> string + utils_go.error)
         (rec : http.Recorder) (c statusCode : Z) (body : Any),
    let out := utils_go.WriteBody Any OfString OfMap Marshal rec statusCode body in
    let stored := utils_go.WriteBody Any OfString OfMap Marshal
                    (utils.MkStatusWriter rec c) statusCode body in
    let sent := match Marshal body with
                | inl _ => statusCode
                | inr _ => 500
                end in
    (forall b, Marshal body = inl b ->
               out = (utils_go.WriteJSON rec statusCode b, None)) /\
    (forall e, Marshal body = inr e ->
               out = (fst (utils_go.Fault Any OfString OfMap Marshal rec 500
                             "internal_server_error" (utils_go.Error_text e)),
                      Some e)) /\
    http.recCodes (fst out) = http.recCodes rec ++ [sent] /\
    http.recHeader (fst out) !! "Content-Type" =
      Some ["application/json; charset=utf-8"] /\
    utils.StatusCode (fst stored) = sent /\
    utils.ResponseWriter (fst stored) = fst out /\
    snd stored = snd out.
Proof.
  intros Any OfString OfMap Marshal rec c statusCode body out stored sent.
  unfold out, stored, sent, utils_go.WriteBody.
  destruct (Marshal body) as [b | e].
  - split; [intros b' [= <-]; reflexivity |]. split; [discriminate |].
    cbn. split; [reflexivity |]. split; [apply lookup_insert_eq |].
    split; [reflexivity |]. split; reflexivity.
  - split; [discriminate |].
    unfold utils_go.StatusInternalServerError,
      utils_go.FaultCodeInternalServerError.
    split; [intros e0 [= <-]; now destruct (utils_go.Fault _ _ _ _ _ _ _ _) |].
    rewrite !Fault_writer. cbv zeta.
    destruct (Marshal _) as [b | e']; cbn;
      (split; [reflexivity |]); (split; [apply lookup_insert_eq |]);
      (split; [reflexivity |]); split; reflexivity.
Qed.

Lemma WriteBody_status_witness :
  utils_go.WriteBody string id toy_OfMap toy_Marshal http.NewRecorder 201 "created" =
  (utils_go.WriteJSON http.NewRecorder 201 "created", None) /\
  http.recCodes
    (fst (utils_go.WriteBody string id toy_OfMap toy_Marshal http.NewRecorder 200
            "+Inf")) = [500].
Proof.
  split.
  - apply (proj1 (WriteBody_status string id toy_OfMap toy_Marshal
                    http.NewRecorder 0 201 "created")).
    reflexivity.
  - exact (proj1 (proj2 (proj2 (WriteBody_status string id toy_OfMap toy_Marshal
                                  http.NewRecorder 0 200 "+Inf")))).
Defined.

(** X12. [FaultWithData] encodes the fault's three fields merged with the
    additional data, whose entries win: a key of the additional data named
    code, msg or message replaces the fault's own field.  The keys of the
    encoded map are those three and the keys of the additional data, and
    with no additional data the call is [Fault]. *)
Theorem FaultWithData_merges_additional_data :
  forall (Any : Type) (OfString : string -> Any) (OfMap : gmap string Any -> Any)
         (Marshal : Any -> string + utils_go.error)
         (W : Type) (RW : http.ResponseWriter W) (w : W) (httpStatus : Z)
         (code message : string) (additionalData : gmap string Any),
    exists response : gmap string Any,
      utils_go.FaultWithData Any OfString OfMap Marshal w httpStatus code message
        additionalData =
      utils_go.Encode Any Marshal
        (http.WriteHeader httpStatus
           (http.UpdateHeader
              (http.Header_Set "Content-Type" "application/json; charset=utf-8") w))
        (OfMap response) /\
      (forall k v, additionalData !! k = Some v -> response !! k = Some v) /\
      (additionalData !! "code" = None -> response !! "code" = Some (OfString code)) /\
      (additionalData !! "msg" = None -> response !! "msg" = Some (OfString message)) /\
      (additionalData !! "message" = None ->
       response !! "message" = Some (OfString message)) /\
      dom response = dom additionalData ∪ {["code"; "msg"; "message"]} /\
      (additionalData = ∅ ->
       utils_go.FaultWithData Any OfString OfMap Marshal w httpStatus code message
         additionalData =
       utils_go.Fault Any OfString OfMap Marshal w httpStatus code message).
Proof.
  intros Any OfString OfMap Marshal W RW w httpStatus code message additionalData.
  eexists. split; [reflexivity |].
  split; [| split; [| split; [| split; [| split]]]].
  - intros k v Hk. apply lookup_union_Some_l. exact Hk.
  - intros Hnone. rewrite lookup_union_r by exact Hnone. now simplify_map_eq.
  - intros Hnone. rewrite lookup_union_r by exact Hnone. now simplify_map_eq.
  - intros Hnone. rewrite lookup_union_r by exact Hnone. now simplify_map_eq.
  - rewrite dom_union_L, !dom_insert_L. set_solver.
  - intros ->. unfold utils_go.FaultWithData, utils_go.Fault.
    cbv zeta. now rewrite (left_id_L ∅ (∪)).
Qed.

Lemma FaultWithData_merges_additional_data_witness :
  http.recBody
    (fst (utils_go.FaultWithData string id toy_OfMap toy_Marshal http.NewRecorder
            400 "invalid_param" "fault test" {["message" := "replaced"]})) =
  "replaced" +:+ utils_go.newline /\
  utils_go.FaultWithData string id toy_OfMap toy_Marshal http.NewRecorder 400
    "invalid_param" "fault test" ∅ =
  utils_go.Fault string id toy_OfMap toy_Marshal http.NewRecorder 400
    "invalid_param" "fault test".
Proof.
  destruct (FaultWithData_merges_additional_data string id toy_OfMap toy_Marshal
              http.Recorder _ http.NewRecorder 400 "invalid_param" "fault test" ∅)
    as (response & _ & _ & _ & _ & _ & _ & Hempty).
  split; [reflexivity | exact (Hempty eq_refl)].
Defined.

(** ** Parameters of the request *)

Lemma string_of_uint_head (d : Decimal.uint) :
  d <> Decimal.Nil ->
  exists c rest,
    NilEmpty.string_of_uint d = String c rest /\
    Ascii.eqb c "+" = false /\ Ascii.eqb c "-" = false.
Proof.
  intros Hd. destruct d; [contradiction | ..]; cbn [NilEmpty.string_of_uint];
    eexists _, _; (split; [reflexivity |]); split; reflexivity.
Qed.

Lemma Atoi_decimal (n : Z) :
  strconv.minInt <= n <= strconv.maxInt ->
  strconv.Atoi (fmt.decimal n) = Some n.
Proof.
  intros Hrange. unfold fmt.decimal.
  unfold strconv.minInt, strconv.maxInt in Hrange.
  destruct n as [| q | q]; [reflexivity | |];
    cbn [Z.to_int NilZero.string_of_int];
    pose proof (DecimalPos.Unsigned.to_uint_nonnil q) as Hnonnil;
    pose proof (DecimalPos.Unsigned.of_to q) as Hvalue;
    pose proof (NilEmpty.usu (Pos.to_uint q)) as Hparse;
    destruct (string_of_uint_head _ Hnonnil) as (c & rest & Hs & Hplus & Hminus);
    assert (Hzero : NilZero.string_of_uint (Pos.to_uint q) = String c rest)
      by (unfold NilZero.string_of_uint; destruct (Pos.to_uint q);
          [contradiction | ..]; exact Hs);
    rewrite Hzero; rewrite Hs in Hparse; unfold strconv.Atoi.
  - rewrite Hplus, Hminus, Hparse. unfold Z.of_uint. rewrite Hvalue.
    cbn [Z.of_N].
    unfold strconv.minInt, strconv.maxInt.
    rewrite (proj2 (Z.leb_le _ _) (proj1 Hrange)).
    now rewrite (proj2 (Z.leb_le _ _) (proj2 Hrange)).
  - cbn [Ascii.eqb Bool.eqb]. rewrite Hparse. unfold Z.of_uint. rewrite Hvalue.
    cbn [Z.of_N]. change (- Z.pos q) with (Z.neg q).
    unfold strconv.minInt, strconv.maxInt.
    rewrite (proj2 (Z.leb_le _ _) (proj1 Hrange)).
    now rewrite (proj2 (Z.leb_le _ _) (proj2 Hrange)).
Qed.

Lemma Atoi_range (s : string) (n : Z) :
  strconv.Atoi s = Some n -> strconv.minInt <= n <= strconv.maxInt.
Proof.
  unfold strconv.Atoi.
  destruct (match s with
            | EmptyString => (false, s)
            | String c rest =>
                if Ascii.eqb c "+" then (false, rest)
                else if Ascii.eqb c "-" then (true, rest) else (false, s)
            end) as [negative digits].
  destruct digits as [| c rest]; [discriminate |].
  destruct (NilEmpty.uint_of_string _) as [d |]; [| discriminate].
  cbv zeta.
  destruct (Z.leb_spec strconv.minInt (if negative then - Z.of_uint d else Z.of_uint d)),
    (Z.leb_spec (if negative then - Z.of_uint d else Z.of_uint d) strconv.maxInt);
    cbn [andb]; intros Heq; first [discriminate | injection Heq as <-].
  split; assumption.
Qed.

Lemma decimal_nonempty (n : Z) : String.eqb (fmt.decimal n) "" = false.
Proof.
  destruct (decimal_head n) as (c & rest & -> & _). reflexivity.
Qed.

(** X13. [ParseIDParam] returns every integer of the [int] range that the
    route parameter spells in decimal, and writes nothing then.  A missing
    parameter is answered as not found and any other text as an invalid
    type; whenever it returns an error the id is 0 and a 400 fault with the
    code invalid_param has been written, and whenever it returns none the
    writer is untouched and the id is what [Atoi] read, within the range. *)
Theorem ParseIDParam_reads_decimal_integers :
  forall (Any : Type) (OfString : string -> Any) (OfMap : gmap string Any -> Any)
         (Marshal : Any -> string + utils_go.error)
         (URLParam : Request -> string -> string)
         (W : Type) (RW : http.ResponseWriter W) (w : W) (r : Request)
         (param : string),
    let out := utils_go.ParseIDParam Any OfString OfMap Marshal URLParam w r param in
    let fault (text : string) :=
      fst (utils_go.Fault Any OfString OfMap Marshal w 400 "invalid_param" text) in
    (forall n, strconv.minInt <= n <= strconv.maxInt ->
               URLParam r param = fmt.verb_d (fmt.Int n) ->
               out = (w, n, None)) /\
    (URLParam r param = "" ->
     out = (fault (param +:+ " was not not found"), 0,
            Some (utils_go.errors_New "parameter nof found"))) /\
    (URLParam r param <> "" -> strconv.Atoi (URLParam r param) = None ->
     out = (fault (param +:+ " is invalid type"), 0,
            Some (utils_go.errors_New "parameter invalid"))) /\
    (snd out <> None ->
     snd (fst out) = 0 /\ exists text, fst (fst out) = fault text) /\
    (snd out = None ->
     fst (fst out) = w /\
     strconv.Atoi (URLParam r param) = Some (snd (fst out)) /\
     strconv.minInt <= snd (fst out) <= strconv.maxInt).
Proof.
  intros Any OfString OfMap Marshal URLParam W RW w r param out fault.
  unfold out, fault, utils_go.ParseIDParam. cbv zeta.
  unfold utils_go.StatusBadRequest, utils_go.InvalidParam.
  split; [| split; [| split; [| split]]].
  - intros n Hrange Hparam. rewrite Hparam. cbn [fmt.verb_d].
    now rewrite decimal_nonempty, Atoi_decimal.
  - intros ->. cbn [String.eqb].
    now destruct (utils_go.Fault _ _ _ _ _ _ _ _).
  - intros Hsome Hnone.
    destruct (String.eqb_spec (URLParam r param) ""); [contradiction |].
    rewrite Hnone. now destruct (utils_go.Fault _ _ _ _ _ _ _ _).
  - intros Herr.
    destruct (String.eqb (URLParam r param) "").
    + destruct (utils_go.Fault _ _ _ _ _ _ _ _) eqn:Hf.
      cbn [fst snd]. split; [reflexivity |]. eexists. now rewrite Hf.
    + destruct (strconv.Atoi (URLParam r param)); [contradiction |].
      destruct (utils_go.Fault _ _ _ _ _ _ _ _) eqn:Hf.
      cbn [fst snd]. split; [reflexivity |]. eexists. now rewrite Hf.
  - intros Hnil.
    destruct (String.eqb (URLParam r param) "").
    + destruct (utils_go.Fault _ _ _ _ _ _ _ _). discriminate.
    + destruct (strconv.Atoi (URLParam r param)) as [n |] eqn:Hatoi.
      * cbn [fst snd]. split; [reflexivity |]. split; [reflexivity |].
        now apply (Atoi_range (URLParam r param)).
      * destruct (utils_go.Fault _ _ _ _ _ _ _ _). discriminate.
Qed.

Lemma ParseIDParam_reads_decimal_integers_witness :
  utils_go.ParseIDParam string id toy_OfMap toy_Marshal (fun _ _ => "-1111")
    http.NewRecorder get_user_42 "accountID" = (http.NewRecorder, -1111, None) /\
  http.recCodes
    (fst (fst (utils_go.ParseIDParam string id toy_OfMap toy_Marshal
                 (fun _ _ => "asdad") http.NewRecorder get_user_42 "accountID")))
    = [400].
Proof.
  split.
  - apply (proj1 (ParseIDParam_reads_decimal_integers string id toy_OfMap
                    toy_Marshal (fun _ _ => "-1111") http.Recorder _
                    http.NewRecorder get_user_42 "accountID") (-1111)).
    + unfold strconv.minInt, strconv.maxInt. lia.
    + reflexivity.
  - rewrite (proj1 (proj2 (proj2 (ParseIDParam_reads_decimal_integers string id
                                    toy_OfMap toy_Marshal (fun _ _ => "asdad")
                                    http.Recorder _ http.NewRecorder get_user_42
                                    "accountID")))).
    + reflexivity.
    + discriminate.
    + reflexivity.
Defined.

(** X14. The float and UUID helpers follow one rule: they return an error
    exactly when they have written a 400 fault with the code invalid_param,
    and leave the writer untouched otherwise.  On an error the float
    helpers return the zero value, while [ParseParamUUID] returns what
    [uuid.Parse] returned, error included; [ParseFloatParam] and
    [ParseFloatQuery] differ only in where they read the text. *)
Theorem parse_helpers_answer_400_exactly_on_error :
  forall (Any : Type) (OfString : string -> Any) (OfMap : gmap string Any -> Any)
         (Marshal : Any -> string + utils_go.error)
         (URLParam Query_Get : Request -> string -> string)
         (float64 : Type) (float_zero : float64)
         (ParseFloat : string -> float64 * option utils_go.error)
         (UUID : Type) (uuid_Parse : string -> UUID * option utils_go.error)
         (W : Type) (RW : http.ResponseWriter W) (w : W) (r : Request)
         (param : string),
    let fault (text : string) :=
      fst (utils_go.Fault Any OfString OfMap Marshal w 400 "invalid_param" text) in
    let by_param := utils_go.ParseFloatParam Any OfString OfMap Marshal URLParam
                      float64 float_zero ParseFloat w r param in
    let by_query := utils_go.ParseFloatQuery Any OfString OfMap Marshal Query_Get
                      float64 float_zero ParseFloat w r param in
    let by_uuid := utils_go.ParseParamUUID Any OfString OfMap Marshal URLParam
                     UUID uuid_Parse w r param in
    (snd by_param = None -> fst (fst by_param) = w) /\
    (snd by_param <> None ->
     snd (fst by_param) = float_zero /\ exists text, fst (fst by_param) = fault text) /\
    (snd by_query = None -> fst (fst by_query) = w) /\
    (snd by_query <> None ->
     snd (fst by_query) = float_zero /\ exists text, fst (fst by_query) = fault text) /\
    (URLParam r param = Query_Get r param -> by_param = by_query) /\
    (snd by_uuid = None -> fst (fst by_uuid) = w) /\
    (forall e, snd by_uuid = Some e ->
               fst (fst by_uuid) = fault (utils_go.Error_text e)) /\
    (snd (fst by_uuid), snd by_uuid) = uuid_Parse (URLParam r param).
Proof.
  intros Any OfString OfMap Marshal URLParam Query_Get float64 float_zero
    ParseFloat UUID uuid_Parse W RW w r param fault by_param by_query by_uuid.
  unfold by_param, by_query, by_uuid, fault, utils_go.ParseFloatParam,
    utils_go.ParseFloatQuery, utils_go.ParseParamUUID.
  unfold utils_go.StatusBadRequest, utils_go.InvalidParam. cbv zeta.
  split; [| split; [| split; [| split; [| split; [| split; [| split]]]]]].
  - destruct (String.eqb (URLParam r param) "").
    + destruct (utils_go.Fault _ _ _ _ _ _ _ _). discriminate.
    + destruct (ParseFloat (URLParam r param)) as [x [e |]].
      * destruct (utils_go.Fault _ _ _ _ _ _ _ _). discriminate.
      * reflexivity.
  - intros Herr. destruct (String.eqb (URLParam r param) "").
    + destruct (utils_go.Fault _ _ _ _ _ _ _ _) eqn:Hf. cbn [fst snd].
      split; [reflexivity |]. eexists. now rewrite Hf.
    + destruct (ParseFloat (URLParam r param)) as [x [e |]]; [| contradiction].
      destruct (utils_go.Fault _ _ _ _ _ _ _ _) eqn:Hf. cbn [fst snd].
      split; [reflexivity |]. eexists. now rewrite Hf.
  - destruct (String.eqb (Query_Get r param) "").
    + destruct (utils_go.Fault _ _ _ _ _ _ _ _). discriminate.
    + destruct (ParseFloat (Query_Get r param)) as [x [e |]].
      * destruct (utils_go.Fault _ _ _ _ _ _ _ _). discriminate.
      * reflexivity.
  - intros Herr. destruct (String.eqb (Query_Get r param) "").
    + destruct (utils_go.Fault _ _ _ _ _ _ _ _) eqn:Hf. cbn [fst snd].
      split; [reflexivity |]. eexists. now rewrite Hf.
    + destruct (ParseFloat (Query_Get r param)) as [x [e |]]; [| contradiction].
      destruct (utils_go.Fault _ _ _ _ _ _ _ _) eqn:Hf. cbn [fst snd].
      split; [reflexivity |]. eexists. now rewrite Hf.
  - intros Hsame. now rewrite Hsame.
  - destruct (uuid_Parse (URLParam r param)) as [u [e |]].
    + destruct (utils_go.Fault _ _ _ _ _ _ _ _). discriminate.
    + reflexivity.
  - intros e. destruct (uuid_Parse (URLParam r param)) as [u [e' |]].
    + destruct (utils_go.Fault _ _ _ _ _ _ _ _) eqn:Hf. cbn [fst snd].
      intros [= <-]. now rewrite Hf.
    + discriminate.
  - destruct (uuid_Parse (URLParam r param)) as [u [e |]].
    + now destruct (utils_go.Fault _ _ _ _ _ _ _ _).
    + reflexivity.
Qed.

Lemma parse_helpers_answer_400_exactly_on_error_witness :
  fst (fst (utils_go.ParseFloatQuery string id toy_OfMap toy_Marshal
              (fun _ _ => "12.5") nat 0%nat (fun s => (String.length s, None))
              http.NewRecorder get_user_42 "accountID")) = http.NewRecorder /\
  http.recCodes
    (fst (fst (utils_go.ParseParamUUID string id toy_OfMap toy_Marshal
                 (fun _ _ => "1111") nat
                 (fun s => (0%nat, Some (utils_go.Foreign "invalid UUID length: 4")))
                 http.NewRecorder get_user_42 "accountID"))) = [400].
Proof.
  pose proof (parse_helpers_answer_400_exactly_on_error string id toy_OfMap
                toy_Marshal (fun _ _ => "1111") (fun _ _ => "12.5") nat 0%nat
                (fun s => (String.length s, None)) nat
                (fun s => (0%nat, Some (utils_go.Foreign "invalid UUID length: 4")))
                http.Recorder _ http.NewRecorder get_user_42 "accountID")
    as (_ & _ & Hquery & _ & _ & _ & Huuid & _).
  split.
  - apply Hquery. reflexivity.
  - rewrite (Huuid (utils_go.Foreign "invalid UUID length: 4") eq_refl).
    reflexivity.
Defined.

(** ** The fixed endpoints *)

(** X15. [GetStatus] always returns, leaves the process state alone and
    answers every request alike: JSON content type and one status line,
    200 when the fixed map encodes and 500 otherwise.  On the three paths
    where the constructors register it, the metrics and tracing
    middlewares add nothing to this. *)
Theorem GetStatus_answers_every_request_alike :
  forall (Any : Type) (OfString : string -> Any) (OfMap : gmap string Any -> Any)
         (Marshal : Any -> string + utils_go.error)
         (rec : http.Recorder) (r : Request) (p : Proc),
    let GetStatus := httpkit_endpoints.GetStatus Any OfString OfMap Marshal in
    let out := GetStatus http.Recorder _ rec r p in
    let sent := match Marshal (OfMap (<["message" := OfString "OK"]> ∅)) with
                | inl _ => 200
                | inr _ => 500
                end in
    out_exit out = Returned /\
    out_proc out = p /\
    http.recCodes (out_w out) = http.recCodes rec ++ [sent] /\
    http.recHeader (out_w out) !! "Content-Type" =
      Some ["application/json; charset=utf-8"] /\
    (forall (r' : Request) (p' : Proc),
       out_w (GetStatus http.Recorder _ rec r' p') = out_w out) /\
    (Path (url r) = "/" \/ Path (url r) = "/ready" \/ Path (url r) = "/status" ->
     metrics.MetricsMiddleware (tracing.TracingMiddleware GetStatus)
       http.Recorder _ rec r p = out).
Proof.
  intros Any OfString OfMap Marshal rec r p GetStatus out sent.
  assert (Hshape : forall (r' : Request) (p' : Proc),
             GetStatus http.Recorder _ rec r' p' =
             MkOut (fst (utils_go.WriteBody Any OfString OfMap Marshal rec 200
                           (OfMap (<["message" := OfString "OK"]> ∅))))
                   p' Returned).
  { intros r' p'. unfold GetStatus, httpkit_endpoints.GetStatus.
    now destruct (utils_go.WriteBody _ _ _ _ _ _ _). }
  unfold out. rewrite Hshape. cbn [out_w out_proc out_exit].
  split; [reflexivity |]. split; [reflexivity |].
  split; [| split; [| split]].
  - unfold sent, utils_go.WriteBody.
    destruct (Marshal (OfMap (<["message" := OfString "OK"]> ∅))); [reflexivity |].
    unfold utils_go.StatusInternalServerError,
      utils_go.FaultCodeInternalServerError.
    rewrite Fault_writer. cbv zeta. now destruct (Marshal _).
  - unfold utils_go.WriteBody.
    destruct (Marshal (OfMap (<["message" := OfString "OK"]> ∅)));
      [apply lookup_insert_eq |].
    unfold utils_go.StatusInternalServerError,
      utils_go.FaultCodeInternalServerError.
    rewrite Fault_writer. cbv zeta.
    destruct (Marshal _); apply lookup_insert_eq.
  - intros r' p'. now rewrite Hshape.
  - intros Hfixed.
    assert (Hcheck : utils.CheckInValidPath r = true)
      by (apply CheckInValidPath_paths; tauto).
    unfold metrics.MetricsMiddleware, tracing.TracingMiddleware.
    rewrite Hcheck. apply Hshape.
Qed.

Lemma GetStatus_answers_every_request_alike_witness :
  metrics.MetricsMiddleware
    (tracing.TracingMiddleware
       (httpkit_endpoints.GetStatus string id toy_OfMap toy_Marshal))
    http.Recorder _ http.NewRecorder get_status proc0 =
  httpkit_endpoints.GetStatus string id toy_OfMap toy_Marshal
    http.Recorder _ http.NewRecorder get_status proc0.
Proof.
  apply (proj2 (proj2 (proj2 (proj2 (proj2
           (GetStatus_answers_every_request_alike string id toy_OfMap toy_Marshal
              http.NewRecorder get_status proc0)))))).
  right. right. reflexivity.
Defined.
